(** * XHE kernel: identity, addressing, pulses, slips and the social graph

    A shallow embedding of [kernel.js] (class [XHEKernel] and the pure
    helpers around it) together with the properties its specification
    states about it.

    Modelling conventions.
    - A JS object used as a dictionary is a [gmap string _] over its own
      properties; a JS array is a [list].
    - [localStorage] is the record [Store]: one optional value per storage
      key, [None] when the key is absent.  A stored value is identified
      with the JSON text [saveState] writes for it, so [loadState] returns
      exactly what was saved; writes are assumed to succeed.
    - Numbers are integers: the UI passes [parseInt] results as amounts and
      the pulse counter only counts up from 0.  They are unbounded here
      (JS is exact below 2^53).
    - A method is one uninterrupted turn (single logical writer): an
      [async] method is a function from the state before to the state after.
    - A method that can [throw] returns a [Result]; the state carried by
      [Throw] is what the method had already changed when it threw.
    - [timestamp()] and [randomHex()] read an environment [Env]: the i-th
      call made by one operation returns the i-th element of the stream.
    - Platform primitives (SHA-256, [btoa], [JSON.stringify],
      [String.prototype.trim]) are the fields of the class [Platform]. *)

From Stdlib Require Import ZArith NArith Ascii DecimalString DecimalN DecimalPos.
From stdpp Require Import base option list gmap strings fin_maps.

Local Open Scope Z_scope.

(** ** JavaScript strings and truthiness *)

Module Js.

(** [s.startsWith(p)] *)
Definition startsWith (s p : string) : bool := String.prefix p s.

(** [s.slice(n)] for [0 <= n] *)
Fixpoint slice_from (n : nat) (s : string) : string :=
  match n, s with
  | O, _ => s
  | S n', String _ s' => slice_from n' s'
  | S _, EmptyString => EmptyString
  end.

(** [s.slice(0, n)] *)
Fixpoint slice_to (n : nat) (s : string) : string :=
  match n, s with
  | S n', String c s' => String c (slice_to n' s')
  | _, _ => EmptyString
  end.

(** [s.slice(a, b)] for [0 <= a <= b] *)
Definition slice (a b : nat) (s : string) : string :=
  slice_to (b - a) (slice_from a s).

(** [s.split(sep)] for a one-character separator *)
Fixpoint split (sep : ascii) (s : string) : list string :=
  match s with
  | EmptyString => [EmptyString]
  | String c s' =>
      if Ascii.eqb c sep then EmptyString :: split sep s'
      else match split sep s' with
           | x :: xs => String c x :: xs
           | [] => [String c EmptyString]
           end
  end.

(** [parts.join(sep)] *)
Fixpoint join (sep : string) (parts : list string) : string :=
  match parts with
  | [] => EmptyString
  | [x] => x
  | x :: xs => x +:+ sep +:+ join sep xs
  end.

(** a string is falsy exactly when it is empty *)
Definition truthy_string (s : string) : bool :=
  match s with EmptyString => false | _ => true end.

(** [o || null] for an optional string: a missing or empty string is dropped *)
Definition or_null (o : option string) : option string :=
  match o with
  | Some s => if truthy_string s then Some s else None
  | None => None
  end.

(** truthiness of [obj[key]] when the values are numbers: [undefined] and
    [0] are falsy *)
Definition truthy_number (o : option Z) : bool :=
  match o with
  | Some z => negb (z =? 0)
  | None => false
  end.

(** [obj[key] || 0] *)
Definition number_or_0 (o : option Z) : Z := default 0 o.

(** [String(n)] for a non-negative integer *)
Definition String_of_N (n : N) : string := NilEmpty.string_of_uint (N.to_uint n).

Fixpoint repeat_char (c : ascii) (n : nat) : string :=
  match n with
  | O => EmptyString
  | S n' => String c (repeat_char c n')
  end.

(** [s.padStart(len, c)] *)
Definition padStart (len : nat) (c : ascii) (s : string) : string :=
  repeat_char c (len - String.length s) +:+ s.

(** [String(z)] for an integer *)
Definition String_of_Z (z : Z) : string := NilZero.string_of_int (Z.to_int z).

(** [arr.includes(x)] *)
Definition includes (l : list string) (x : string) : bool := bool_decide (x ∈ l).

(** the number a string of decimal digits denotes *)
Definition N_of_String (s : string) : option N :=
  N.of_uint <$> NilEmpty.uint_of_string s.

End Js.

(** ** JSON values (pulse payloads, and what [JSON.stringify] receives) *)

#[local] Unset Elimination Schemes.
Inductive JSON :=
| JNull
| JBool (b : bool)
| JNum (z : Z)
| JStr (s : string)
| JArr (items : list JSON)
| JObj (fields : list (string * JSON)).
#[local] Set Elimination Schemes.

Definition JOpt (o : option string) : JSON :=
  match o with Some s => JStr s | None => JNull end.

(** ** Platform primitives *)

Class Platform := {
  (** [sha256(content)]: lowercase hex of the SHA-256 digest of the UTF-8 bytes *)
  sha256 : string → string;
  (** [btoa(s)] *)
  btoa : string → string;
  (** [JSON.stringify(v)] *)
  JSON_stringify : JSON → string;
  (** [JSON.stringify(v, null, 2)] *)
  JSON_stringify_indent : JSON → string;
  (** [s.trim()] *)
  String_trim : string → string
}.

(** ** Constants *)

Inductive RESOLUTION_STATE :=
| RESOLVED | KNOWN_BUT_UNAVAILABLE | UNKNOWN | FORBIDDEN | INVALID.

Inductive URI_SCHEME := XHE | DID_XHE | PULSE | IPFS | SLIP | FEED | CHANNEL.

Definition URI_SCHEMES (s : URI_SCHEME) : string :=
  match s with
  | XHE => "xhe" | DID_XHE => "did:xhe" | PULSE => "pulse" | IPFS => "ipfs"
  | SLIP => "slip" | FEED => "feed" | CHANNEL => "channel"
  end.

Inductive PULSE_TYPE :=
| KERNEL_INIT | KERNEL_RESET
| IDENTITY_CREATE | IDENTITY_REGENERATE
| ADDRESS_GENERATE | ADDRESS_RESOLVE
| SLIP_MINT | SLIP_TRANSFER | SLIP_BURN
| POST_CREATE | POST_REPLY | POST_REPOST
| FOLLOW | UNFOLLOW | CHANNEL_CREATE | CHANNEL_POST.

Definition PULSE_TYPE_name (t : PULSE_TYPE) : string :=
  match t with
  | KERNEL_INIT => "KERNEL_INIT" | KERNEL_RESET => "KERNEL_RESET"
  | IDENTITY_CREATE => "IDENTITY_CREATE"
  | IDENTITY_REGENERATE => "IDENTITY_REGENERATE"
  | ADDRESS_GENERATE => "ADDRESS_GENERATE" | ADDRESS_RESOLVE => "ADDRESS_RESOLVE"
  | SLIP_MINT => "SLIP_MINT" | SLIP_TRANSFER => "SLIP_TRANSFER"
  | SLIP_BURN => "SLIP_BURN"
  | POST_CREATE => "POST_CREATE" | POST_REPLY => "POST_REPLY"
  | POST_REPOST => "POST_REPOST"
  | FOLLOW => "FOLLOW" | UNFOLLOW => "UNFOLLOW"
  | CHANNEL_CREATE => "CHANNEL_CREATE" | CHANNEL_POST => "CHANNEL_POST"
  end.

(** ** URI parser *)

Module Parsed.
Record t := mk { scheme : URI_SCHEME; sequence : option string; hash : string }.
End Parsed.

Definition parseAddress `{Platform} (address : string) : option Parsed.t :=
  if negb (Js.truthy_string address) then None else
  let trimmed := String_trim address in
  if Js.startsWith trimmed "xhe://" then
    Some (Parsed.mk XHE None (Js.slice_from 6 trimmed))
  else if Js.startsWith trimmed "did:xhe:" then
    Some (Parsed.mk DID_XHE None (Js.slice_from 8 trimmed))
  else if Js.startsWith trimmed "pulse://" then
    let rest := Js.slice_from 8 trimmed in
    let parts := Js.split "/" rest in
    if (2 <=? length parts)%nat
    then Some (Parsed.mk PULSE (head parts) (Js.join "/" (tail parts)))
    else Some (Parsed.mk PULSE None rest)
  else if Js.startsWith trimmed "ipfs://" then
    Some (Parsed.mk IPFS None (Js.slice_from 7 trimmed))
  else if Js.startsWith trimmed "slip://" then
    Some (Parsed.mk SLIP None (Js.slice_from 7 trimmed))
  else if Js.startsWith trimmed "feed://" then
    Some (Parsed.mk FEED None (Js.slice_from 7 trimmed))
  else if Js.startsWith trimmed "channel://" then
    Some (Parsed.mk CHANNEL None (Js.slice_from 10 trimmed))
  else None.

(** ** Data model *)

Module KernelMeta.
Record t := mk { version : string; created : string; lastActive : string }.
End KernelMeta.

Module Identity.
Record t := mk { did : string; publicKey : string; created : string; version : Z }.
End Identity.

(** an entry of the identity history: the archived identity spread into a
    record with [archivedAt] and [reason] *)
Module Archived.
Record t := mk { identity : Identity.t; archivedAt : string; reason : string }.
Definition did (h : t) : string := Identity.did (identity h).
End Archived.

Module ContentEntry.
Record t := mk {
  content : string; timestamp : string; author : string; scheme : string;
  (** [postMeta: { id, type: 'POST' }], written by [createPost] only *)
  postMeta : option string }.
End ContentEntry.

Module IndexEntry.
Record t := mk { hash : string; type : string; timestamp : string; preview : string }.
End IndexEntry.

Module Pulse.
Record t := mk {
  type : PULSE_TYPE; payload : JSON; timestamp : string; author : string;
  sequence : string; kernelVersion : string;
  hash : string; address : string; id : string }.
End Pulse.

Module Tx.
Inductive kind := MINT | TRANSFER.
Record t := mk {
  id : string; type : kind; from : option string; to : string; amount : Z;
  reason : option string; memo : option string;
  timestamp : string; address : string }.
End Tx.

Module SlipLedger.
Record t := mk { balances : gmap string Z; transactions : list Tx.t }.
(** [{ balances: {}, transactions: [] }] *)
Definition empty : t := mk ∅ [].
End SlipLedger.

Module SocialGraph.
Record t := mk { following : list string; followers : list string; blocked : list string }.
(** [{ following: [], followers: [], blocked: [] }] *)
Definition empty : t := mk [] [] [].
End SocialGraph.

Module Post.
Record t := mk {
  id : string; content : string; hash : string; author : string;
  timestamp : string; replyTo : option string; repostOf : option string;
  channel : option string; address : string }.
End Post.

Module Feed.
Record t := mk { id : string; owner : string; posts : list Post.t; created : string }.
End Feed.

Module Channel.
Record t := mk {
  id : string; name : string; description : string; owner : string;
  created : string; posts : list Post.t; members : list string; address : string }.
End Channel.

(** ** Storage layer *)

Module Store.
(** [localStorage], one field per entry of [STORAGE_KEYS] *)
Record t := mk {
  KERNEL_META : option KernelMeta.t;
  IDENTITY : option Identity.t;
  IDENTITY_HISTORY : option (list Archived.t);
  CONTENT_STORE : option (gmap string ContentEntry.t);
  PULSE_STORE : option (gmap string Pulse.t);
  PULSE_SEQUENCE : option N;
  ADDRESS_INDEX : option (gmap string IndexEntry.t);
  SLIP_LEDGER : option SlipLedger.t;
  SOCIAL_GRAPH : option SocialGraph.t;
  FEEDS : option (gmap string Feed.t);
  CHANNELS : option (gmap string Channel.t) }.

Definition empty : t :=
  mk None None None None None None None None None None None.

Definition set_KERNEL_META v (s : t) : t :=
  mk v (IDENTITY s) (IDENTITY_HISTORY s) (CONTENT_STORE s) (PULSE_STORE s)
     (PULSE_SEQUENCE s) (ADDRESS_INDEX s) (SLIP_LEDGER s) (SOCIAL_GRAPH s)
     (FEEDS s) (CHANNELS s).
Definition set_IDENTITY v (s : t) : t :=
  mk (KERNEL_META s) v (IDENTITY_HISTORY s) (CONTENT_STORE s) (PULSE_STORE s)
     (PULSE_SEQUENCE s) (ADDRESS_INDEX s) (SLIP_LEDGER s) (SOCIAL_GRAPH s)
     (FEEDS s) (CHANNELS s).
Definition set_IDENTITY_HISTORY v (s : t) : t :=
  mk (KERNEL_META s) (IDENTITY s) v (CONTENT_STORE s) (PULSE_STORE s)
     (PULSE_SEQUENCE s) (ADDRESS_INDEX s) (SLIP_LEDGER s) (SOCIAL_GRAPH s)
     (FEEDS s) (CHANNELS s).
Definition set_CONTENT_STORE v (s : t) : t :=
  mk (KERNEL_META s) (IDENTITY s) (IDENTITY_HISTORY s) v (PULSE_STORE s)
     (PULSE_SEQUENCE s) (ADDRESS_INDEX s) (SLIP_LEDGER s) (SOCIAL_GRAPH s)
     (FEEDS s) (CHANNELS s).
Definition set_PULSE_STORE v (s : t) : t :=
  mk (KERNEL_META s) (IDENTITY s) (IDENTITY_HISTORY s) (CONTENT_STORE s) v
     (PULSE_SEQUENCE s) (ADDRESS_INDEX s) (SLIP_LEDGER s) (SOCIAL_GRAPH s)
     (FEEDS s) (CHANNELS s).
Definition set_PULSE_SEQUENCE v (s : t) : t :=
  mk (KERNEL_META s) (IDENTITY s) (IDENTITY_HISTORY s) (CONTENT_STORE s)
     (PULSE_STORE s) v (ADDRESS_INDEX s) (SLIP_LEDGER s) (SOCIAL_GRAPH s)
     (FEEDS s) (CHANNELS s).
Definition set_ADDRESS_INDEX v (s : t) : t :=
  mk (KERNEL_META s) (IDENTITY s) (IDENTITY_HISTORY s) (CONTENT_STORE s)
     (PULSE_STORE s) (PULSE_SEQUENCE s) v (SLIP_LEDGER s) (SOCIAL_GRAPH s)
     (FEEDS s) (CHANNELS s).
Definition set_SLIP_LEDGER v (s : t) : t :=
  mk (KERNEL_META s) (IDENTITY s) (IDENTITY_HISTORY s) (CONTENT_STORE s)
     (PULSE_STORE s) (PULSE_SEQUENCE s) (ADDRESS_INDEX s) v (SOCIAL_GRAPH s)
     (FEEDS s) (CHANNELS s).
Definition set_SOCIAL_GRAPH v (s : t) : t :=
  mk (KERNEL_META s) (IDENTITY s) (IDENTITY_HISTORY s) (CONTENT_STORE s)
     (PULSE_STORE s) (PULSE_SEQUENCE s) (ADDRESS_INDEX s) (SLIP_LEDGER s) v
     (FEEDS s) (CHANNELS s).
Definition set_FEEDS v (s : t) : t :=
  mk (KERNEL_META s) (IDENTITY s) (IDENTITY_HISTORY s) (CONTENT_STORE s)
     (PULSE_STORE s) (PULSE_SEQUENCE s) (ADDRESS_INDEX s) (SLIP_LEDGER s)
     (SOCIAL_GRAPH s) v (CHANNELS s).
Definition set_CHANNELS v (s : t) : t :=
  mk (KERNEL_META s) (IDENTITY s) (IDENTITY_HISTORY s) (CONTENT_STORE s)
     (PULSE_STORE s) (PULSE_SEQUENCE s) (ADDRESS_INDEX s) (SLIP_LEDGER s)
     (SOCIAL_GRAPH s) (FEEDS s) v.
End Store.

(** [loadState(key, defaultValue)]: the stored text of a present key is
    never empty, so a present key yields its value *)
Definition loadState {A} (stored : option A) (defaultValue : A) : A :=
  default defaultValue stored.

(** [saveState(key, value)], [key] given by the setter of its field *)
Definition saveState {A} (set : option A → Store.t → Store.t) (value : A)
    (st : Store.t) : Store.t :=
  set (Some value) st.

(** [localStorage.removeItem(key)] *)
Definition removeItem {A} (set : option A → Store.t → Store.t) (st : Store.t) : Store.t :=
  set None st.

(** ** Kernel state *)

Module Kernel.
Record t := mk {
  kernelMeta : KernelMeta.t;
  _pulseSequence : N;
  identity : Identity.t;
  identityHistory : list Archived.t;
  contentStore : gmap string ContentEntry.t;
  pulseStore : gmap string Pulse.t;
  addressIndex : gmap string IndexEntry.t;
  slipLedger : SlipLedger.t;
  socialGraph : SocialGraph.t;
  feeds : gmap string Feed.t;
  channels : gmap string Channel.t }.

Definition set__pulseSequence v (k : t) : t :=
  mk (kernelMeta k) v (identity k) (identityHistory k) (contentStore k)
     (pulseStore k) (addressIndex k) (slipLedger k) (socialGraph k) (feeds k)
     (channels k).
Definition set_identity v (k : t) : t :=
  mk (kernelMeta k) (_pulseSequence k) v (identityHistory k) (contentStore k)
     (pulseStore k) (addressIndex k) (slipLedger k) (socialGraph k) (feeds k)
     (channels k).
Definition set_identityHistory v (k : t) : t :=
  mk (kernelMeta k) (_pulseSequence k) (identity k) v (contentStore k)
     (pulseStore k) (addressIndex k) (slipLedger k) (socialGraph k) (feeds k)
     (channels k).
Definition set_contentStore v (k : t) : t :=
  mk (kernelMeta k) (_pulseSequence k) (identity k) (identityHistory k) v
     (pulseStore k) (addressIndex k) (slipLedger k) (socialGraph k) (feeds k)
     (channels k).
Definition set_pulseStore v (k : t) : t :=
  mk (kernelMeta k) (_pulseSequence k) (identity k) (identityHistory k)
     (contentStore k) v (addressIndex k) (slipLedger k) (socialGraph k)
     (feeds k) (channels k).
Definition set_addressIndex v (k : t) : t :=
  mk (kernelMeta k) (_pulseSequence k) (identity k) (identityHistory k)
     (contentStore k) (pulseStore k) v (slipLedger k) (socialGraph k)
     (feeds k) (channels k).
Definition set_slipLedger v (k : t) : t :=
  mk (kernelMeta k) (_pulseSequence k) (identity k) (identityHistory k)
     (contentStore k) (pulseStore k) (addressIndex k) v (socialGraph k)
     (feeds k) (channels k).
Definition set_socialGraph v (k : t) : t :=
  mk (kernelMeta k) (_pulseSequence k) (identity k) (identityHistory k)
     (contentStore k) (pulseStore k) (addressIndex k) (slipLedger k) v
     (feeds k) (channels k).
Definition set_feeds v (k : t) : t :=
  mk (kernelMeta k) (_pulseSequence k) (identity k) (identityHistory k)
     (contentStore k) (pulseStore k) (addressIndex k) (slipLedger k)
     (socialGraph k) v (channels k).
Definition set_channels v (k : t) : t :=
  mk (kernelMeta k) (_pulseSequence k) (identity k) (identityHistory k)
     (contentStore k) (pulseStore k) (addressIndex k) (slipLedger k)
     (socialGraph k) (feeds k) v.
End Kernel.

(** The fields of [this] that [_createIdentity] and [_emitPulseSync] use.
    Both also run inside the constructor, where a field is [undefined]
    ([None]) until [_initializeKernel] has assigned it. *)
Module This.
Record t := mk {
  kernelMeta : option KernelMeta.t;
  _pulseSequence : N;
  identity : option Identity.t;
  slipLedger : option SlipLedger.t;
  pulseStore : option (gmap string Pulse.t) }.

(** the view of a fully constructed kernel *)
Definition of_kernel (k : Kernel.t) : t :=
  mk (Some (Kernel.kernelMeta k)) (Kernel._pulseSequence k)
     (Some (Kernel.identity k)) (Some (Kernel.slipLedger k))
     (Some (Kernel.pulseStore k)).

(** writing the view back into the kernel object *)
Definition to_kernel (this : t) (k : Kernel.t) : Kernel.t :=
  Kernel.set_pulseStore (default (Kernel.pulseStore k) (pulseStore this))
    (Kernel.set_slipLedger (default (Kernel.slipLedger k) (slipLedger this))
      (Kernel.set__pulseSequence (_pulseSequence this) k)).
End This.

(** ** Exceptions, results, environment *)

Inductive Exception :=
| TypeError (message : string)
| Error (message : string).

Inductive Result (A S : Type) :=
| Ok (value : A) (after : S)
| Throw (exn : Exception) (after : S).
Arguments Ok {A S} value after.
Arguments Throw {A S} exn after.

Definition state_after {A S} (r : Result A S) : S :=
  match r with Ok _ s => s | Throw _ s => s end.

Definition is_Ok {A S} (r : Result A S) : bool :=
  match r with Ok _ _ => true | Throw _ _ => false end.

Module Env.
Record t := mk {
  (** results of the successive calls of [timestamp()] *)
  timestamp : nat → string;
  (** results of the successive calls of [randomHex(_)] *)
  randomHex : nat → string }.
End Env.

Definition State : Type := Store.t * Kernel.t.

(** ** Pulse system *)

(** [_getNextSequence], on the counter field of [this] *)
Definition _getNextSequence (st : Store.t) (_pulseSequence : N) : string * (Store.t * N) :=
  let next := (_pulseSequence + 1)%N in
  (Js.padStart 8 "0" (Js.String_of_N next),
   (saveState Store.set_PULSE_SEQUENCE next st, next)).

(** the record [{ type, payload, timestamp, author, sequence, kernelVersion }]
    that is serialised and hashed *)
Definition pulse_record (type : PULSE_TYPE) (payload : JSON)
    (ts author sequence kernelVersion : string) : JSON :=
  JObj [("type", JStr (PULSE_TYPE_name type)); ("payload", payload);
        ("timestamp", JStr ts); ("author", JStr author);
        ("sequence", JStr sequence); ("kernelVersion", JStr kernelVersion)].

Module Emitted.
Record t := mk { pulseId : string; address : string; pulse : Pulse.t }.
End Emitted.

(** [_emitPulse(type, payload)]; [t] is the number of [timestamp()] calls the
    operation made before *)
Definition _emitPulse `{Platform} (e : Env.t) (t : nat) (type : PULSE_TYPE)
    (payload : JSON) (s : State) : Emitted.t * State :=
  let '(st, k) := s in
  let '(sequence, (st, next)) := _getNextSequence st (Kernel._pulseSequence k) in
  let k := Kernel.set__pulseSequence next k in
  let ts := Env.timestamp e t in
  let author := Identity.did (Kernel.identity k) in
  let kernelVersion := KernelMeta.version (Kernel.kernelMeta k) in
  let pulseContent :=
    JSON_stringify (pulse_record type payload ts author sequence kernelVersion) in
  let hash := sha256 pulseContent in
  let pulseId := sequence +:+ "/" +:+ hash in
  let address := "pulse://" +:+ pulseId in
  let storedPulse :=
    Pulse.mk type payload ts author sequence kernelVersion hash address pulseId in
  let k := Kernel.set_pulseStore (<[pulseId := storedPulse]> (Kernel.pulseStore k)) k in
  let st := saveState Store.set_PULSE_STORE (Kernel.pulseStore k) st in
  (Emitted.mk pulseId address storedPulse, (st, k)).

(** [_emitPulseSync(type, payload)] *)
Definition _emitPulseSync `{Platform} (e : Env.t) (t : nat) (type : PULSE_TYPE)
    (payload : JSON) (s : Store.t * This.t) : Store.t * This.t :=
  let '(st, this) := s in
  let '(sequence, (st, next)) := _getNextSequence st (This._pulseSequence this) in
  let ts := Env.timestamp e t in
  let author :=
    match This.identity this with
    | Some i => if Js.truthy_string (Identity.did i) then Identity.did i else "kernel"
    | None => "kernel"
    end in
  let kernelVersion :=
    match This.kernelMeta this with
    | Some m =>
        if Js.truthy_string (KernelMeta.version m) then KernelMeta.version m else "1.0.0"
    | None => "1.0.0"
    end in
  let pulseContent :=
    JSON_stringify (pulse_record type payload ts author sequence kernelVersion) in
  let hash := Js.slice_to 32 (btoa pulseContent) in
  let pulseId := sequence +:+ "/" +:+ hash in
  let pulseStore := default ∅ (This.pulseStore this) in
  let pulseStore :=
    <[pulseId := Pulse.mk type payload ts author sequence kernelVersion hash
                   ("pulse://" +:+ pulseId) pulseId]> pulseStore in
  (saveState Store.set_PULSE_STORE pulseStore st,
   This.mk (This.kernelMeta this) next (This.identity this) (This.slipLedger this)
     (Some pulseStore)).

(** ** Identity *)

(** [_createIdentity(emitPulse)]; [t] and [r] are the numbers of
    [timestamp()] and [randomHex()] calls the operation made before *)
Definition _createIdentity `{Platform} (e : Env.t) (t r : nat) (emitPulse : bool)
    (s : Store.t * This.t) : Result Identity.t (Store.t * This.t) :=
  let '(st, this) := s in
  let id := Env.randomHex e r in
  let identity :=
    Identity.mk ("did:xhe:" +:+ id) (Env.randomHex e (S r)) (Env.timestamp e t) 1 in
  let st := saveState Store.set_IDENTITY identity st in
  match This.slipLedger this with
  | None =>
      (* [this.slipLedger] is undefined *)
      Throw (TypeError "Cannot read properties of undefined (reading 'balances')")
        (st, this)
  | Some ledger =>
      let '(st, this) :=
        if negb (Js.truthy_number (SlipLedger.balances ledger !! Identity.did identity))
        then
          let ledger :=
            SlipLedger.mk (<[Identity.did identity := 100]> (SlipLedger.balances ledger))
              (SlipLedger.transactions ledger) in
          (saveState Store.set_SLIP_LEDGER ledger st,
           This.mk (This.kernelMeta this) (This._pulseSequence this)
             (This.identity this) (Some ledger) (This.pulseStore this))
        else (st, this) in
      let s :=
        if emitPulse
        then _emitPulseSync e (S t) IDENTITY_CREATE
               (JObj [("did", JStr (Identity.did identity))]) (st, this)
        else (st, this) in
      Ok identity s
  end.

(** [_loadOrCreateIdentity(isNewKernel)] *)
Definition _loadOrCreateIdentity `{Platform} (e : Env.t) (t r : nat)
    (isNewKernel : bool) (s : Store.t * This.t) : Result Identity.t (Store.t * This.t) :=
  match loadState (Some <$> Store.IDENTITY s.1) None with
  | Some stored =>
      if Js.truthy_string (Identity.did stored) then Ok stored s
      else _createIdentity e t r isNewKernel s
  | None => _createIdentity e t r isNewKernel s
  end.

(** ** Kernel initialisation: [new XHEKernel()] over the store [st] *)

Definition _initializeKernel `{Platform} (e : Env.t) (st : Store.t) : Result Kernel.t Store.t :=
  let loaded := loadState (Some <$> Store.KERNEL_META st) None in
  let isNewKernel := match loaded with None => true | Some _ => false end in
  let '(kernelMeta, t) :=
    match loaded with
    | None => (KernelMeta.mk "1.0.0" (Env.timestamp e 0) (Env.timestamp e 1), 2%nat)
    | Some m =>
        (KernelMeta.mk (KernelMeta.version m) (KernelMeta.created m) (Env.timestamp e 0),
         1%nat)
    end in
  let st := saveState Store.set_KERNEL_META kernelMeta st in
  let _pulseSequence := loadState (Store.PULSE_SEQUENCE st) 0%N in
  (* identity is loaded or created before any store is loaded *)
  let this := This.mk (Some kernelMeta) _pulseSequence None None None in
  match _loadOrCreateIdentity e t 0 isNewKernel (st, this) with
  | Throw exn (st, _) => Throw exn st
  | Ok ident (st, this) =>
      let identity := ident in
      let identityHistory := loadState (Store.IDENTITY_HISTORY st) [] in
      let contentStore := loadState (Store.CONTENT_STORE st) ∅ in
      let pulseStore := loadState (Store.PULSE_STORE st) ∅ in
      let addressIndex := loadState (Store.ADDRESS_INDEX st) ∅ in
      let slipLedger := loadState (Store.SLIP_LEDGER st) SlipLedger.empty in
      let '(slipLedger, st) :=
        if negb (Js.truthy_number (SlipLedger.balances slipLedger !! Identity.did identity))
        then
          let ledger :=
            SlipLedger.mk
              (<[Identity.did identity := 100]> (SlipLedger.balances slipLedger))
              (SlipLedger.transactions slipLedger) in
          (ledger, saveState Store.set_SLIP_LEDGER ledger st)
        else (slipLedger, st) in
      let socialGraph := loadState (Store.SOCIAL_GRAPH st) SocialGraph.empty in
      let feeds := loadState (Store.FEEDS st) ∅ in
      let channels := loadState (Store.CHANNELS st) ∅ in
      let k :=
        Kernel.mk kernelMeta (This._pulseSequence this) identity identityHistory
          contentStore pulseStore addressIndex slipLedger socialGraph feeds channels in
      if isNewKernel then
        let '(st, this) :=
          _emitPulseSync e t KERNEL_INIT
            (JObj [("version", JStr (KernelMeta.version kernelMeta));
                   ("identity", JStr (Identity.did identity))])
            (st, This.of_kernel k) in
        Ok (This.to_kernel this k) st
      else Ok k st
  end.

(** [regenerateIdentity()] *)
Definition regenerateIdentity `{Platform} (e : Env.t) (s : State) : Result Identity.t State :=
  let '(st, k) := s in
  let identityHistory :=
    Kernel.identityHistory k ++
    [Archived.mk (Kernel.identity k) (Env.timestamp e 0) "USER_REGENERATE"] in
  let k := Kernel.set_identityHistory identityHistory k in
  let st := saveState Store.set_IDENTITY_HISTORY identityHistory st in
  let oldDid := Identity.did (Kernel.identity k) in
  match _createIdentity e 1 0 false (st, This.of_kernel k) with
  | Throw exn (st, this) => Throw exn (st, This.to_kernel this k)
  | Ok ident (st, this) =>
      let identity := ident in
      let k := Kernel.set_identity identity (This.to_kernel this k) in
      let '(_, s) :=
        _emitPulse e 2 IDENTITY_REGENERATE
          (JObj [("oldDid", JStr oldDid); ("newDid", JStr (Identity.did identity));
                 ("historyLength", JNum (Z.of_nat (length identityHistory)))])
          (st, k) in
      Ok identity s
  end.

(** ** Address generation *)

Module Generated.
Record t := mk { address : string; hash : string; timestamp : string; pulseId : string }.
End Generated.

(** [generateAddress(content, scheme, options)]; [sequence] is
    [options.sequence] *)
Definition generateAddress `{Platform} (e : Env.t) (content scheme : string)
    (sequence : option string) (s : State) : Result Generated.t State :=
  if negb (Js.truthy_string content)
  then Throw (Error "Content must be a non-empty string") s
  else
    let '(st, k) := s in
    let hash := sha256 content in
    let ts := Env.timestamp e 0 in
    let switch : option (string * State) :=
      if bool_decide (scheme = URI_SCHEMES XHE) then
        Some ("xhe://" +:+ hash, (st, k))
      else if bool_decide (scheme = URI_SCHEMES DID_XHE) then
        Some ("did:xhe:" +:+ Js.slice_to 32 hash, (st, k))
      else if bool_decide (scheme = URI_SCHEMES PULSE) then
        match Js.or_null sequence with
        | Some given => Some ("pulse://" +:+ given +:+ "/" +:+ hash, (st, k))
        | None =>
            let '(allocated, (st, next)) :=
              _getNextSequence st (Kernel._pulseSequence k) in
            Some ("pulse://" +:+ allocated +:+ "/" +:+ hash,
                  (st, Kernel.set__pulseSequence next k))
        end
      else if bool_decide (scheme = URI_SCHEMES IPFS) then
        Some ("ipfs://" +:+ hash, (st, k))
      else None in
    match switch with
    | None => Throw (Error ("Unknown scheme: " +:+ scheme)) s
    | Some (address, (st, k)) =>
        let contentStore :=
          <[hash := ContentEntry.mk content ts (Identity.did (Kernel.identity k))
                      scheme None]> (Kernel.contentStore k) in
        let k := Kernel.set_contentStore contentStore k in
        let st := saveState Store.set_CONTENT_STORE contentStore st in
        let preview :=
          Js.slice_to 50 content +:+
          (if (50 <? String.length content)%nat then "..." else "") in
        let addressIndex :=
          <[address := IndexEntry.mk hash scheme ts preview]> (Kernel.addressIndex k) in
        let k := Kernel.set_addressIndex addressIndex k in
        let st := saveState Store.set_ADDRESS_INDEX addressIndex st in
        let '(pulseResult, s) :=
          _emitPulse e 1 ADDRESS_GENERATE
            (JObj [("address", JStr address); ("scheme", JStr scheme);
                   ("hash", JStr (Js.slice_to 16 hash +:+ "..."))])
            (st, k) in
        Ok (Generated.mk address hash ts (Emitted.pulseId pulseResult)) s
    end.

(** ** Address resolution *)

Module Resolution.
Inductive metadata :=
| OfContent (timestamp author scheme : string)
| OfIndex (entry : IndexEntry.t)
| Own (created : string)
| Historical (archivedAt reason : string)
| OfPulse (type : PULSE_TYPE) (author timestamp sequence : string)
| OfTx (tx : Tx.t)
| OfFeed (feed : Feed.t)
| OfChannel (channel : Channel.t).
Record t := mk {
  state : RESOLUTION_STATE; type : string; content : option string;
  error : option string; meta : option metadata; address : string }.
End Resolution.

Definition Pulse_json (p : Pulse.t) : JSON :=
  JObj [("type", JStr (PULSE_TYPE_name (Pulse.type p))); ("payload", Pulse.payload p);
        ("timestamp", JStr (Pulse.timestamp p)); ("author", JStr (Pulse.author p));
        ("sequence", JStr (Pulse.sequence p));
        ("kernelVersion", JStr (Pulse.kernelVersion p));
        ("hash", JStr (Pulse.hash p)); ("address", JStr (Pulse.address p));
        ("id", JStr (Pulse.id p))].

Definition Tx_json (tx : Tx.t) : JSON :=
  JObj ([("id", JStr (Tx.id tx));
         ("type", JStr (match Tx.type tx with Tx.MINT => "MINT" | Tx.TRANSFER => "TRANSFER" end))]
        ++ match Tx.from tx with Some f => [("from", JStr f)] | None => [] end
        ++ [("to", JStr (Tx.to tx)); ("amount", JNum (Tx.amount tx))]
        ++ match Tx.reason tx with Some r => [("reason", JStr r)] | None => [] end
        ++ match Tx.memo tx with Some m => [("memo", JStr m)] | None => [] end
        ++ [("timestamp", JStr (Tx.timestamp tx)); ("address", JStr (Tx.address tx))]).

Definition Post_json (p : Post.t) : JSON :=
  JObj [("id", JStr (Post.id p)); ("type", JStr "POST");
        ("content", JStr (Post.content p)); ("hash", JStr (Post.hash p));
        ("author", JStr (Post.author p)); ("timestamp", JStr (Post.timestamp p));
        ("replyTo", JOpt (Post.replyTo p)); ("repostOf", JOpt (Post.repostOf p));
        ("channel", JOpt (Post.channel p)); ("address", JStr (Post.address p))].

Definition Feed_json (f : Feed.t) : JSON :=
  JObj [("id", JStr (Feed.id f)); ("owner", JStr (Feed.owner f));
        ("posts", JArr (Post_json <$> Feed.posts f));
        ("created", JStr (Feed.created f))].

Definition Channel_json (c : Channel.t) : JSON :=
  JObj [("id", JStr (Channel.id c)); ("name", JStr (Channel.name c));
        ("description", JStr (Channel.description c));
        ("owner", JStr (Channel.owner c)); ("created", JStr (Channel.created c));
        ("posts", JArr (Post_json <$> Channel.posts c));
        ("members", JArr (JStr <$> Channel.members c));
        ("address", JStr (Channel.address c))].

Definition _resolveContentAddress (k : Kernel.t) (address : string) (parsed : Parsed.t)
    : Resolution.t :=
  let type := URI_SCHEMES (Parsed.scheme parsed) in
  match Kernel.contentStore k !! Parsed.hash parsed with
  | Some entry =>
      Resolution.mk RESOLVED type (Some (ContentEntry.content entry)) None
        (Some (Resolution.OfContent (ContentEntry.timestamp entry)
                 (ContentEntry.author entry) (ContentEntry.scheme entry)))
        address
  | None =>
      match Kernel.addressIndex k !! address with
      | Some entry =>
          Resolution.mk KNOWN_BUT_UNAVAILABLE type None
            (Some "Address known but content not available locally")
            (Some (Resolution.OfIndex entry)) address
      | None =>
          Resolution.mk UNKNOWN type None (Some "Address not found in kernel state")
            None address
      end
  end.

Definition _resolveIdentityAddress `{Platform} (k : Kernel.t) (address : string)
    (parsed : Parsed.t) : Resolution.t :=
  let identity := Kernel.identity k in
  if bool_decide (address = Identity.did identity) then
    Resolution.mk RESOLVED "did:xhe"
      (Some (JSON_stringify_indent
         (JObj [("did", JStr (Identity.did identity));
                ("publicKey", JStr (Identity.publicKey identity));
                ("created", JStr (Identity.created identity));
                ("slipBalance",
                 JNum (Js.number_or_0
                   (SlipLedger.balances (Kernel.slipLedger k) !! Identity.did identity)))])))
      None (Some (Resolution.Own (Identity.created identity))) address
  else
    match List.find (λ h, bool_decide (Archived.did h = address))
            (Kernel.identityHistory k) with
    | Some historical =>
        Resolution.mk KNOWN_BUT_UNAVAILABLE "did:xhe" None
          (Some "Historical identity (no longer active)")
          (Some (Resolution.Historical (Archived.archivedAt historical)
                   (Archived.reason historical)))
          address
    | None =>
        let known :=
          Js.includes (SocialGraph.following (Kernel.socialGraph k)) address
          || Js.includes (SocialGraph.followers (Kernel.socialGraph k)) address in
        if known then
          Resolution.mk KNOWN_BUT_UNAVAILABLE "did:xhe" None
            (Some "Known identity but full data not available locally") None address
        else
          Resolution.mk UNKNOWN "did:xhe" None
            (Some "Identity not found in kernel state") None address
    end.

Definition _resolvePulseAddress `{Platform} (k : Kernel.t) (address : string)
    (parsed : Parsed.t) : Resolution.t :=
  let pulseKey :=
    match Js.or_null (Parsed.sequence parsed) with
    | Some sequence => sequence +:+ "/" +:+ Parsed.hash parsed
    | None => Parsed.hash parsed
    end in
  match Kernel.pulseStore k !! pulseKey with
  | Some pulse =>
      Resolution.mk RESOLVED "pulse" (Some (JSON_stringify_indent (Pulse_json pulse))) None
        (Some (Resolution.OfPulse (Pulse.type pulse) (Pulse.author pulse)
                 (Pulse.timestamp pulse) (Pulse.sequence pulse)))
        address
  | None =>
      Resolution.mk UNKNOWN "pulse" None (Some "Pulse not found in kernel state") None
        address
  end.

Definition _resolveSlipAddress `{Platform} (k : Kernel.t) (address : string)
    (parsed : Parsed.t) : Resolution.t :=
  match List.find (λ t, bool_decide (Tx.id t = Parsed.hash parsed))
          (SlipLedger.transactions (Kernel.slipLedger k)) with
  | Some tx =>
      Resolution.mk RESOLVED "slip" (Some (JSON_stringify_indent (Tx_json tx))) None
        (Some (Resolution.OfTx tx)) address
  | None =>
      Resolution.mk UNKNOWN "slip" None (Some "Slip transaction not found") None address
  end.

Definition _resolveFeedAddress `{Platform} (k : Kernel.t) (address : string)
    (parsed : Parsed.t) : Resolution.t :=
  match Kernel.feeds k !! Parsed.hash parsed with
  | Some feed =>
      Resolution.mk RESOLVED "feed" (Some (JSON_stringify_indent (Feed_json feed))) None
        (Some (Resolution.OfFeed feed)) address
  | None => Resolution.mk UNKNOWN "feed" None (Some "Feed not found") None address
  end.

Definition _resolveChannelAddress `{Platform} (k : Kernel.t) (address : string)
    (parsed : Parsed.t) : Resolution.t :=
  match Kernel.channels k !! Parsed.hash parsed with
  | Some channel =>
      Resolution.mk RESOLVED "channel"
        (Some (JSON_stringify_indent (Channel_json channel))) None
        (Some (Resolution.OfChannel channel)) address
  | None => Resolution.mk UNKNOWN "channel" None (Some "Channel not found") None address
  end.

(** [resolveAddress(address)] *)
Definition resolveAddress `{Platform} (e : Env.t) (address : string) (s : State)
    : Result Resolution.t State :=
  match parseAddress address with
  | None =>
      Ok (Resolution.mk INVALID "unknown" None (Some "Malformed address format") None
            address) s
  | Some parsed =>
      let '(_, (st, k)) :=
        _emitPulse e 0 ADDRESS_RESOLVE
          (JObj [("address", JStr (Js.slice_to 40 address));
                 ("scheme", JStr (URI_SCHEMES (Parsed.scheme parsed)))]) s in
      let result :=
        match Parsed.scheme parsed with
        | XHE | IPFS => _resolveContentAddress k address parsed
        | DID_XHE => _resolveIdentityAddress k address parsed
        | PULSE => _resolvePulseAddress k address parsed
        | SLIP => _resolveSlipAddress k address parsed
        | FEED => _resolveFeedAddress k address parsed
        | CHANNEL => _resolveChannelAddress k address parsed
        end in
      Ok result (st, k)
  end.

(** [clearAddressIndex()] *)
Definition clearAddressIndex (s : State) : State :=
  let '(st, k) := s in
  (saveState Store.set_ADDRESS_INDEX ∅ st, Kernel.set_addressIndex ∅ k).

(** ** Slip system *)

(** [getSlipBalance(did = null)] *)
Definition getSlipBalance (did : option string) (k : Kernel.t) : Z :=
  let target :=
    match Js.or_null did with
    | Some d => d
    | None => Identity.did (Kernel.identity k)
    end in
  Js.number_or_0 (SlipLedger.balances (Kernel.slipLedger k) !! target).

(** [mintSlips(amount, reason)] *)
Definition mintSlips `{Platform} (e : Env.t) (amount : Z) (reason : string) (s : State)
    : Result Tx.t State :=
  if amount <=? 0 then Throw (Error "Amount must be positive") s
  else
    let '(st, k) := s in
    let self := Identity.did (Kernel.identity k) in
    let txId := Env.randomHex e 0 in
    let tx :=
      Tx.mk txId Tx.MINT None self amount (Some reason) None (Env.timestamp e 0)
        ("slip://" +:+ txId) in
    let ledger := Kernel.slipLedger k in
    let newBalance := Js.number_or_0 (SlipLedger.balances ledger !! self) + amount in
    let ledger :=
      SlipLedger.mk (<[self := newBalance]> (SlipLedger.balances ledger))
        (SlipLedger.transactions ledger ++ [tx]) in
    let k := Kernel.set_slipLedger ledger k in
    let st := saveState Store.set_SLIP_LEDGER ledger st in
    let '(_, s) :=
      _emitPulse e 1 SLIP_MINT
        (JObj [("amount", JNum amount); ("reason", JStr reason);
               ("newBalance", JNum newBalance)])
        (st, k) in
    Ok tx s.

(** [balances[did] -= amount].  On a missing entry JS would store NaN; the
    only caller has checked [amount <= balances[did] || 0] with [0 < amount]
    before, so the entry exists there. *)
Definition debit (did : string) (amount : Z) (balances : gmap string Z) : gmap string Z :=
  match balances !! did with
  | Some b => <[did := b - amount]> balances
  | None => balances
  end.

(** [transferSlips(toDid, amount, memo)] *)
Definition transferSlips `{Platform} (e : Env.t) (toDid : string) (amount : Z)
    (memo : string) (s : State) : Result Tx.t State :=
  if amount <=? 0 then Throw (Error "Amount must be positive") s
  else
    let '(st, k) := s in
    let fromBalance := getSlipBalance None k in
    if fromBalance <? amount then
      Throw (Error ("Insufficient slips: have " +:+ Js.String_of_Z fromBalance +:+
                    ", need " +:+ Js.String_of_Z amount)) s
    else
      let self := Identity.did (Kernel.identity k) in
      let txId := Env.randomHex e 0 in
      let tx :=
        Tx.mk txId Tx.TRANSFER (Some self) toDid amount None (Some memo)
          (Env.timestamp e 0) ("slip://" +:+ txId) in
      let ledger := Kernel.slipLedger k in
      let balances := debit self amount (SlipLedger.balances ledger) in
      let balances := <[toDid := Js.number_or_0 (balances !! toDid) + amount]> balances in
      let ledger := SlipLedger.mk balances (SlipLedger.transactions ledger ++ [tx]) in
      let k := Kernel.set_slipLedger ledger k in
      let st := saveState Store.set_SLIP_LEDGER ledger st in
      let '(_, s) :=
        _emitPulse e 1 SLIP_TRANSFER
          (JObj [("to", JStr (Js.slice_to 20 toDid +:+ "..."));
                 ("amount", JNum amount); ("memo", JStr memo)])
          (st, k) in
      Ok tx s.

(** ** Social system *)

Module PostOptions.
Record t := mk { replyTo : option string; repostOf : option string; channel : option string }.
End PostOptions.

(** [createPost(content, options)] *)
Definition createPost `{Platform} (e : Env.t) (content : string) (options : PostOptions.t)
    (s : State) : Result Post.t State :=
  if negb (Js.truthy_string content) then Throw (Error "Post content required") s
  else
    let '(st, k) := s in
    let self := Identity.did (Kernel.identity k) in
    let hash := sha256 content in
    let postId := Env.randomHex e 0 in
    let ts := Env.timestamp e 0 in
    let post :=
      Post.mk postId content hash self ts (Js.or_null (PostOptions.replyTo options))
        (Js.or_null (PostOptions.repostOf options))
        (Js.or_null (PostOptions.channel options)) ("xhe://" +:+ hash) in
    let contentStore :=
      <[hash := ContentEntry.mk content ts self "xhe" (Some postId)]>
        (Kernel.contentStore k) in
    let k := Kernel.set_contentStore contentStore k in
    let st := saveState Store.set_CONTENT_STORE contentStore st in
    let feedId := "personal_" +:+ Js.slice 8 16 self in
    let feed := default (Feed.mk feedId self [] ts) (Kernel.feeds k !! feedId) in
    let feeds :=
      <[feedId := Feed.mk (Feed.id feed) (Feed.owner feed) (post :: Feed.posts feed)
                    (Feed.created feed)]> (Kernel.feeds k) in
    let k := Kernel.set_feeds feeds k in
    let st := saveState Store.set_FEEDS feeds st in
    let '(st, k) :=
      match Js.or_null (PostOptions.channel options) with
      | Some ch =>
          match Kernel.channels k !! ch with
          | Some c =>
              let channels :=
                <[ch := Channel.mk (Channel.id c) (Channel.name c)
                          (Channel.description c) (Channel.owner c) (Channel.created c)
                          (post :: Channel.posts c) (Channel.members c)
                          (Channel.address c)]> (Kernel.channels k) in
              (saveState Store.set_CHANNELS channels st, Kernel.set_channels channels k)
          | None => (st, k)
          end
      | None => (st, k)
      end in
    let pulseType :=
      match Js.or_null (PostOptions.replyTo options) with
      | Some _ => POST_REPLY
      | None =>
          match Js.or_null (PostOptions.repostOf options) with
          | Some _ => POST_REPOST
          | None => POST_CREATE
          end
      end in
    let '(_, s) :=
      _emitPulse e 1 pulseType
        (JObj [("postId", JStr postId); ("hash", JStr (Js.slice_to 16 hash));
               ("preview", JStr (Js.slice_to 50 content))])
        (st, k) in
    Ok post s.

(** [createChannel(name, description)] *)
Definition createChannel `{Platform} (e : Env.t) (name description : string) (s : State)
    : Channel.t * State :=
  let '(st, k) := s in
  let channelId := Env.randomHex e 0 in
  let ts := Env.timestamp e 0 in
  let self := Identity.did (Kernel.identity k) in
  let channel :=
    Channel.mk channelId name description self ts [] [self] ("channel://" +:+ channelId) in
  let channels := <[channelId := channel]> (Kernel.channels k) in
  let k := Kernel.set_channels channels k in
  let st := saveState Store.set_CHANNELS channels st in
  let '(_, s) :=
    _emitPulse e 1 CHANNEL_CREATE
      (JObj [("channelId", JStr channelId); ("name", JStr name)]) (st, k) in
  (channel, s).

(** [follow(did)]; the value is [None] for the bare [return] *)
Definition follow `{Platform} (e : Env.t) (did : string) (s : State)
    : Result (option SocialGraph.t) State :=
  let '(st, k) := s in
  let graph := Kernel.socialGraph k in
  if bool_decide (did = Identity.did (Kernel.identity k)) then
    Throw (Error "Cannot follow self") s
  else if Js.includes (SocialGraph.following graph) did then Ok None s
  else if Js.includes (SocialGraph.blocked graph) did then
    Throw (Error "Cannot follow blocked identity") s
  else
    let graph :=
      SocialGraph.mk (SocialGraph.following graph ++ [did]) (SocialGraph.followers graph)
        (SocialGraph.blocked graph) in
    let k := Kernel.set_socialGraph graph k in
    let st := saveState Store.set_SOCIAL_GRAPH graph st in
    let '(_, s) := _emitPulse e 0 FOLLOW (JObj [("target", JStr did)]) (st, k) in
    Ok (Some graph) s.

(** [unfollow(did)] *)
Definition unfollow `{Platform} (e : Env.t) (did : string) (s : State)
    : SocialGraph.t * State :=
  let '(st, k) := s in
  let graph := Kernel.socialGraph k in
  let graph :=
    SocialGraph.mk
      (List.filter (λ d, negb (bool_decide (d = did))) (SocialGraph.following graph))
      (SocialGraph.followers graph) (SocialGraph.blocked graph) in
  let k := Kernel.set_socialGraph graph k in
  let st := saveState Store.set_SOCIAL_GRAPH graph st in
  let '(_, s) := _emitPulse e 0 UNFOLLOW (JObj [("target", JStr did)]) (st, k) in
  (graph, s).

(** [getStats().pulseCount] *)
Definition pulseCount (k : Kernel.t) : nat := size (Kernel.pulseStore k).

(** ** Export, import, reset *)

(** A parsed snapshot document.  [exportKernelState] writes every field but
    [entries]; a document given to [importKernelState] may lack any of them,
    and a legacy one has [entries] only. *)
Module Snapshot.
Record t := mk {
  version : option Z;
  exported : option string;
  kernelMeta : option KernelMeta.t;
  identity : option Identity.t;
  identityHistory : option (list Archived.t);
  pulseSequence : option N;
  contentStore : option (gmap string ContentEntry.t);
  pulseStore : option (gmap string Pulse.t);
  addressIndex : option (gmap string IndexEntry.t);
  slipLedger : option SlipLedger.t;
  socialGraph : option SocialGraph.t;
  feeds : option (gmap string Feed.t);
  channels : option (gmap string Channel.t);
  entries : option (gmap string IndexEntry.t) }.
End Snapshot.


Module Imported.
Record t := mk { imported : nat; migrated : bool; errors : option (list string) }.
End Imported.

(** [Object.entries(incoming).forEach(([key, value]) => { if (!target[key])
    { target[key] = value; imported++; } })]; the values are objects, hence
    truthy *)
Definition merge_missing {A} (incoming target : gmap string A) : gmap string A * nat :=
  map_fold
    (λ key value acc,
       match acc.1 !! key with
       | None => (<[key := value]> acc.1, S acc.2)
       | Some _ => acc
       end)
    (target, 0%nat) incoming.

(** [importKernelState(jsonString)]; [doc] is [None] when [JSON.parse]
    throws or yields no object, which the [catch] turns into an error entry
    with the engine's [message] *)
Definition importKernelState (message : string) (doc : option Snapshot.t) (s : State)
    : Imported.t * State :=
  match doc with
  | None => (Imported.mk 0 false (Some [message]), s)
  | Some data =>
      let '(st, k) := s in
      let legacy :=
        if bool_decide (Snapshot.version data = Some 2) then None else Snapshot.entries data in
      match legacy with
      | Some entries =>
          (* [Object.assign(this.addressIndex, data.entries)] *)
          let addressIndex := entries ∪ Kernel.addressIndex k in
          (Imported.mk (size entries) true None,
           (saveState Store.set_ADDRESS_INDEX addressIndex st,
            Kernel.set_addressIndex addressIndex k))
      | None =>
          let '(imported, (st, k)) :=
            match Snapshot.contentStore data with
            | Some incoming =>
                let '(contentStore, n) := merge_missing incoming (Kernel.contentStore k) in
                (n, (saveState Store.set_CONTENT_STORE contentStore st,
                     Kernel.set_contentStore contentStore k))
            | None => (0%nat, (st, k))
            end in
          let '(st, k) :=
            match Snapshot.addressIndex data with
            | Some incoming =>
                let addressIndex := (merge_missing incoming (Kernel.addressIndex k)).1 in
                (saveState Store.set_ADDRESS_INDEX addressIndex st,
                 Kernel.set_addressIndex addressIndex k)
            | None => (st, k)
            end in
          let '(st, k) :=
            match Snapshot.pulseStore data with
            | Some incoming =>
                let pulseStore := (merge_missing incoming (Kernel.pulseStore k)).1 in
                (saveState Store.set_PULSE_STORE pulseStore st,
                 Kernel.set_pulseStore pulseStore k)
            | None => (st, k)
            end in
          (Imported.mk imported false (Some []), (st, k))
      end
  end.

(** the loop over [Object.values(STORAGE_KEYS)] in [resetKernel] *)
Definition remove_keys (preserveIdentity : bool) (st : Store.t) : Store.t :=
  let st := removeItem Store.set_KERNEL_META st in
  let st := if preserveIdentity then st else removeItem Store.set_IDENTITY st in
  let st := if preserveIdentity then st else removeItem Store.set_IDENTITY_HISTORY st in
  let st := removeItem Store.set_CONTENT_STORE st in
  let st := removeItem Store.set_PULSE_STORE st in
  let st := removeItem Store.set_PULSE_SEQUENCE st in
  let st := removeItem Store.set_ADDRESS_INDEX st in
  let st := removeItem Store.set_SLIP_LEDGER st in
  let st := removeItem Store.set_SOCIAL_GRAPH st in
  let st := removeItem Store.set_FEEDS st in
  removeItem Store.set_CHANNELS st.

(** [resetKernel(preserveIdentity)] *)
Definition resetKernel `{Platform} (e : Env.t) (preserveIdentity : bool) (s : State)
    : Result unit State :=
  let '(_, (st, k)) :=
    _emitPulse e 1 KERNEL_RESET
      (JObj [("preserveIdentity", JBool preserveIdentity);
             ("timestamp", JStr (Env.timestamp e 0))]) s in
  let st := remove_keys preserveIdentity st in
  let k :=
    Kernel.mk (Kernel.kernelMeta k) 0%N (Kernel.identity k) (Kernel.identityHistory k)
      ∅ ∅ ∅ SlipLedger.empty SocialGraph.empty ∅ ∅ in
  if preserveIdentity then Ok tt (st, k)
  else
    let k := Kernel.set_identityHistory [] k in
    match _createIdentity e 2 0 false (st, This.of_kernel k) with
    | Throw exn (st, this) => Throw exn (st, This.to_kernel this k)
    | Ok ident (st, this) => Ok tt (st, Kernel.set_identity ident (This.to_kernel this k))
    end.

(** ** Runs of the kernel over one durable store *)

Inductive Op :=
| Boot
| GenerateAddress (content scheme : string) (sequence : option string)
| ResolveAddress (address : string)
| ClearAddressIndex
| RegenerateIdentity
| MintSlips (amount : Z) (reason : string)
| TransferSlips (toDid : string) (amount : Z) (memo : string)
| CreatePost (content : string) (options : PostOptions.t)
| CreateChannel (name description : string)
| Follow (did : string)
| Unfollow (did : string)
| ImportKernelState (message : string) (doc : option Snapshot.t)
| ResetKernel (preserveIdentity : bool).

(** the durable store and the kernel object of the running page, if its
    construction succeeded *)
Module World.
Record t := mk { store : Store.t; kernel : option Kernel.t }.
Definition initial : t := mk Store.empty None.
Definition of_state (s : State) : t := mk s.1 (Some s.2).
End World.

(** what a call does to the kernel it is made on *)
Definition call `{Platform} (e : Env.t) (op : Op) (s : State) : State :=
  match op with
  | Boot => s
  | GenerateAddress content scheme sequence =>
      state_after (generateAddress e content scheme sequence s)
  | ResolveAddress address => state_after (resolveAddress e address s)
  | ClearAddressIndex => clearAddressIndex s
  | RegenerateIdentity => state_after (regenerateIdentity e s)
  | MintSlips amount reason => state_after (mintSlips e amount reason s)
  | TransferSlips toDid amount memo => state_after (transferSlips e toDid amount memo s)
  | CreatePost content options => state_after (createPost e content options s)
  | CreateChannel name description => (createChannel e name description s).2
  | Follow did => state_after (follow e did s)
  | Unfollow did => (unfollow e did s).2
  | ImportKernelState message doc => (importKernelState message doc s).2
  | ResetKernel preserveIdentity => state_after (resetKernel e preserveIdentity s)
  end.

(** one step: [Boot] (re)loads the page, constructing a kernel over the
    store; any other operation is a call on the constructed kernel *)
Definition step `{Platform} (w : World.t) (eo : Env.t * Op) : World.t :=
  match eo.2 with
  | Boot =>
      match _initializeKernel eo.1 (World.store w) with
      | Ok k st => World.mk st (Some k)
      | Throw _ st => World.mk st None
      end
  | op =>
      match World.kernel w with
      | Some k => World.of_state (call eo.1 op (World.store w, k))
      | None => w
      end
  end.

Definition run `{Platform} (ops : list (Env.t * Op)) (w : World.t) : World.t :=
  foldl step w ops.

(** ** Vocabulary of the specification *)

(** the sequence string of the [n]-th allocation *)
Definition sequence_string (n : N) : string := Js.padStart 8 "0" (Js.String_of_N n).


(** the sum of all balances *)
Definition total_balance (ledger : SlipLedger.t) : Z :=
  map_fold (λ _ b acc, b + acc) 0 (SlipLedger.balances ledger).


(** the ledger of a world: the live kernel's, or the persisted one when no
    kernel is constructed *)
Definition world_ledger (w : World.t) : SlipLedger.t :=
  match World.kernel w with
  | Some k => Kernel.slipLedger k
  | None => loadState (Store.SLIP_LEDGER (World.store w)) SlipLedger.empty
  end.

(** ** Sample platform and environments, for concrete runs *)

Module Sample.
(** stand-ins for the platform primitives; no property below depends on
    which functions they are *)
Definition platform : Platform :=
  {| sha256 := λ s, "sha256(" +:+ s +:+ ")";
     btoa := λ s, "btoa(" +:+ s +:+ ")";
     JSON_stringify := λ _, "{}";
     JSON_stringify_indent := λ _, "{ }";
     String_trim := λ s, s |}.

(** the environment of the [n]-th operation of a run *)
Definition env (n : N) : Env.t :=
  Env.mk (λ i, "T" +:+ Js.String_of_N n +:+ "." +:+ Js.String_of_N (N.of_nat i))
         (λ i, "R" +:+ Js.String_of_N n +:+ "." +:+ Js.String_of_N (N.of_nat i)).

(** a page load on an empty store, then a reload *)
Definition booted : World.t :=
  run (H := platform) [(env 0, Boot); (env 1, Boot)] World.initial.

Definition kernel_of (w : World.t) (dflt : Kernel.t) : Kernel.t :=
  default dflt (World.kernel w).

Definition blank : Kernel.t :=
  Kernel.mk (KernelMeta.mk "" "" "") 0 (Identity.mk "" "" "" 0) [] ∅ ∅ ∅
    SlipLedger.empty SocialGraph.empty ∅ ∅.

(** the kernel and store after [booted] *)
Definition state : State := (World.store booted, kernel_of booted blank).


End Sample.

(** * Properties *)

(** ** Strings *)

Fixpoint no_slash (s : string) : bool :=
  match s with
  | EmptyString => true
  | String c s' => negb (Ascii.eqb c "/") && no_slash s'
  end.

Lemma no_slash_app s1 s2 : no_slash (s1 +:+ s2) = no_slash s1 && no_slash s2.
Proof. induction s1 as [|c s1 IH]; simpl; [done|]. rewrite IH. by rewrite andb_assoc. Qed.

Lemma no_slash_repeat_zero n : no_slash (Js.repeat_char "0" n) = true.
Proof. induction n; simpl; auto. Qed.

Lemma no_slash_string_of_uint d : no_slash (NilEmpty.string_of_uint d) = true.
Proof. induction d; simpl; auto. Qed.

Lemma no_slash_sequence_string n : no_slash (sequence_string n) = true.
Proof.
  unfold sequence_string, Js.padStart, Js.String_of_N.
  by rewrite no_slash_app, no_slash_repeat_zero, no_slash_string_of_uint.
Qed.

(** the text before the first slash is determined *)
Lemma slash_split_inj x y h h' :
  no_slash x = true → no_slash y = true →
  x +:+ "/" +:+ h = y +:+ "/" +:+ h' → x = y ∧ h = h'.
Proof.
  revert y. induction x as [|c x IH]; intros [|d y] Hx Hy Heq; simpl in *.
  - by inversion Heq.
  - inversion Heq; subst. rewrite Ascii.eqb_refl in Hy. done.
  - inversion Heq; subst. rewrite Ascii.eqb_refl in Hx. done.
  - inversion Heq; subst.
    apply andb_prop in Hx as [_ Hx]. apply andb_prop in Hy as [_ Hy].
    destruct (IH y Hx Hy) as [-> ->]; done.
Qed.

Lemma uint_of_string_zeros n s :
  NilEmpty.uint_of_string (Js.repeat_char "0" n +:+ s)
  = Nat.iter n (option_map Decimal.D0) (NilEmpty.uint_of_string s).
Proof. induction n as [|n IH]; simpl; [done|]. by rewrite IH. Qed.

Lemma of_uint_zeros n d :
  N.of_uint <$> Nat.iter n (option_map Decimal.D0) (Some d) = Some (N.of_uint d).
Proof.
  induction n as [|n IH]; simpl; [done|].
  destruct (Nat.iter n (option_map Decimal.D0) (Some d)) as [d'|] eqn:E; simpl in *;
    [|done].
  by inversion IH.
Qed.

(** a sequence string denotes the number it was made from *)
Lemma N_of_sequence_string n : Js.N_of_String (sequence_string n) = Some n.
Proof.
  unfold Js.N_of_String, sequence_string, Js.padStart, Js.String_of_N.
  rewrite uint_of_string_zeros, NilEmpty.usu, of_uint_zeros.
  by rewrite DecimalN.Unsigned.of_to.
Qed.

Lemma sequence_string_inj n m : sequence_string n = sequence_string m → n = m.
Proof.
  intros Heq. apply (f_equal Js.N_of_String) in Heq.
  rewrite !N_of_sequence_string in Heq. by inversion Heq.
Qed.

Lemma pulse_id_inj n m h h' :
  sequence_string n +:+ "/" +:+ h = sequence_string m +:+ "/" +:+ h' → n = m ∧ h = h'.
Proof.
  intros Heq.
  apply slash_split_inj in Heq as [Hs ->]; auto using no_slash_sequence_string.
  split; [by apply sequence_string_inj | done].
Qed.

Lemma truthy_string_true s : Js.truthy_string s = true ↔ s ≠ "".
Proof. destruct s; simpl; split; intros; congruence. Qed.



Lemma includes_false l x : Js.includes l x = false ↔ x ∉ l.
Proof. unfold Js.includes. apply bool_decide_eq_false. Qed.

(** ** Pulse emission *)

Section Emission.
Context `{Platform}.

(** the pulse [_emitPulse] stores *)
Definition emitted (e : Env.t) (t : nat) (type : PULSE_TYPE) (payload : JSON)
    (s : State) : Pulse.t :=
  Emitted.pulse (_emitPulse e t type payload s).1.

Lemma _emitPulse_eq e t type payload st k :
  _emitPulse e t type payload (st, k) =
  (Emitted.mk (Pulse.id (emitted e t type payload (st, k)))
     (Pulse.address (emitted e t type payload (st, k)))
     (emitted e t type payload (st, k)),
   (Store.set_PULSE_STORE
      (Some (<[Pulse.id (emitted e t type payload (st, k))
               := emitted e t type payload (st, k)]> (Kernel.pulseStore k)))
      (Store.set_PULSE_SEQUENCE (Some (Kernel._pulseSequence k + 1)%N) st),
    Kernel.set_pulseStore
      (<[Pulse.id (emitted e t type payload (st, k))
         := emitted e t type payload (st, k)]> (Kernel.pulseStore k))
      (Kernel.set__pulseSequence (Kernel._pulseSequence k + 1)%N k))).
Proof. reflexivity. Qed.

Lemma emitted_type e t type payload s : Pulse.type (emitted e t type payload s) = type.
Proof. by destruct s. Qed.

Lemma emitted_sequence e t type payload st k :
  Pulse.sequence (emitted e t type payload (st, k))
  = sequence_string (Kernel._pulseSequence k + 1).
Proof. reflexivity. Qed.

Lemma emitted_id e t type payload s :
  Pulse.id (emitted e t type payload s)
  = Pulse.sequence (emitted e t type payload s) +:+ "/" +:+
    Pulse.hash (emitted e t type payload s).
Proof. by destruct s. Qed.

End Emission.

(** ** Ledger reads: [getSlipBalance] *)




(** ** Transfers *)

Section Transfer.
Context `{Platform}.






End Transfer.


(** ** Following *)

Section Follow.
Context `{Platform}.



(** a did that is neither the own one, followed nor blocked is appended to
    the following list, persisted, and one FOLLOW pulse is emitted *)
Lemma follow_new (e : Env.t) (did : string) (st : Store.t) (k : Kernel.t) :
  did ≠ Identity.did (Kernel.identity k) →
  did ∉ SocialGraph.following (Kernel.socialGraph k) →
  did ∉ SocialGraph.blocked (Kernel.socialGraph k) →
  ∃ g st' k',
    follow e did (st, k) = Ok (Some g) (st', k')
    ∧ Kernel.socialGraph k' = g
    ∧ Store.SOCIAL_GRAPH st' = Some g
    ∧ SocialGraph.following g = SocialGraph.following (Kernel.socialGraph k) ++ [did]
    ∧ Kernel._pulseSequence k' = (Kernel._pulseSequence k + 1)%N
    ∧ ∃ p, Pulse.type p = FOLLOW
           ∧ Kernel.pulseStore k' = <[Pulse.id p := p]> (Kernel.pulseStore k).
Proof.
  intros Hne Hfol Hblocked. unfold follow.
  rewrite bool_decide_eq_false_2 by done.
  apply includes_false in Hfol, Hblocked. rewrite Hfol, Hblocked.
  rewrite _emitPulse_eq. set (p := emitted _ _ _ _ _).
  eexists _, _, _. split; [reflexivity|]. cbn -[p].
  split_and!; try done. exists p. split; [apply emitted_type | done].
Qed.

End Follow.


(** ** Export and import *)

Section ExportImport.




End ExportImport.


(** ** Reset *)

Section Reset.
Context `{Platform}.



End Reset.



(** ** Resolution *)

Section Resolve.
Context `{Platform}.

Definition resolve_payload (address : string) (parsed : Parsed.t) : JSON :=
  JObj [("address", JStr (Js.slice_to 40 address));
        ("scheme", JStr (URI_SCHEMES (Parsed.scheme parsed)))].

(** the lookup part of [resolveAddress], on the kernel after the pulse *)
Definition dispatch (k : Kernel.t) (address : string) (parsed : Parsed.t) : Resolution.t :=
  match Parsed.scheme parsed with
  | XHE | IPFS => _resolveContentAddress k address parsed
  | DID_XHE => _resolveIdentityAddress k address parsed
  | PULSE => _resolvePulseAddress k address parsed
  | SLIP => _resolveSlipAddress k address parsed
  | FEED => _resolveFeedAddress k address parsed
  | CHANNEL => _resolveChannelAddress k address parsed
  end.

Lemma dispatch_state k address parsed :
  Resolution.state (dispatch k address parsed)
  ∈ [RESOLVED; KNOWN_BUT_UNAVAILABLE; UNKNOWN].
Proof.
  unfold dispatch, _resolveContentAddress, _resolveIdentityAddress,
    _resolvePulseAddress, _resolveSlipAddress, _resolveFeedAddress,
    _resolveChannelAddress.
  repeat case_match; simpl; set_solver.
Qed.

(** C4.  [resolveAddress] returns a result for every address string and
    never throws.  A string that does not parse yields INVALID and leaves
    store and kernel untouched, so no pulse is emitted.  A string that
    parses yields RESOLVED, KNOWN_BUT_UNAVAILABLE or UNKNOWN; whichever it
    is, the counter advances by one and one ADDRESS_RESOLVE pulse carrying
    the new sequence number is put into the pulse store, and content store,
    ledger, social graph and every other part of the kernel are as before. *)
Theorem resolveAddress_total (e : Env.t) (address : string) (st : Store.t)
    (k : Kernel.t) :
  match parseAddress address with
  | None =>
      ∃ r, resolveAddress e address (st, k) = Ok r (st, k)
           ∧ Resolution.state r = INVALID
  | Some parsed =>
      ∃ r st' k' p,
        resolveAddress e address (st, k) = Ok r (st', k')
        ∧ Resolution.state r ∈ [RESOLVED; KNOWN_BUT_UNAVAILABLE; UNKNOWN]
        ∧ p = emitted e 0 ADDRESS_RESOLVE (resolve_payload address parsed) (st, k)
        ∧ Pulse.type p = ADDRESS_RESOLVE
        ∧ Pulse.sequence p = sequence_string (Kernel._pulseSequence k + 1)
        ∧ Kernel._pulseSequence k' = (Kernel._pulseSequence k + 1)%N
        ∧ Kernel.pulseStore k' = <[Pulse.id p := p]> (Kernel.pulseStore k)
        ∧ k' = Kernel.set_pulseStore (Kernel.pulseStore k')
                 (Kernel.set__pulseSequence (Kernel._pulseSequence k') k)
        ∧ st' = Store.set_PULSE_STORE (Some (Kernel.pulseStore k'))
                  (Store.set_PULSE_SEQUENCE (Some (Kernel._pulseSequence k')) st)
        ∧ Kernel.contentStore k' = Kernel.contentStore k
        ∧ Kernel.slipLedger k' = Kernel.slipLedger k
        ∧ Kernel.socialGraph k' = Kernel.socialGraph k
        ∧ Store.CONTENT_STORE st' = Store.CONTENT_STORE st
        ∧ Store.SLIP_LEDGER st' = Store.SLIP_LEDGER st
        ∧ Store.SOCIAL_GRAPH st' = Store.SOCIAL_GRAPH st
  end.
Proof.
  unfold resolveAddress.
  destruct (parseAddress address) as [parsed|].
  - fold (resolve_payload address parsed). rewrite _emitPulse_eq.
    set (p := emitted _ _ _ _ _).
    eexists _, _, _, p. split; [reflexivity|].
    split; [apply dispatch_state|].
    split_and!; try done; apply emitted_type.
  - eexists. split; reflexivity.
Qed.

End Resolve.

(** ** Address generation *)

Section Generate.
Context `{Platform}.

(** every key of the pulse store is a sequence string not above the counter,
    a slash and a hash *)
Definition pulse_keys_bounded (k : Kernel.t) : Prop :=
  ∀ pid, is_Some (Kernel.pulseStore k !! pid) →
    ∃ n h, pid = sequence_string n +:+ "/" +:+ h ∧ (n ≤ Kernel._pulseSequence k)%N.

(** under that bound the key of the next pulse is not in the store *)
Lemma emitted_id_fresh e t type payload st k :
  pulse_keys_bounded k →
  Kernel.pulseStore k !! Pulse.id (emitted e t type payload (st, k)) = None.
Proof.
  intros Hb. apply eq_None_not_Some. intros Hsome.
  destruct (Hb _ Hsome) as (n & h & Heq & Hle).
  rewrite emitted_id, emitted_sequence in Heq.
  apply pulse_id_inj in Heq as [Hn _]. lia.
Qed.

Lemma emit_count e t type payload st k :
  pulse_keys_bounded k →
  pulseCount (_emitPulse e t type payload (st, k)).2.2 = S (pulseCount k).
Proof.
  intros Hb. rewrite _emitPulse_eq. unfold pulseCount. cbn -[emitted].
  apply map_size_insert_None. by apply emitted_id_fresh.
Qed.

Lemma emit_keys_bounded e t type payload st k :
  pulse_keys_bounded k →
  pulse_keys_bounded (_emitPulse e t type payload (st, k)).2.2.
Proof.
  intros Hb pid. rewrite _emitPulse_eq. cbn -[emitted].
  destruct (decide (Pulse.id (emitted e t type payload (st, k)) = pid)) as [<-|Hne].
  - intros _. eexists _, _. split; [by rewrite emitted_id, emitted_sequence|]. lia.
  - rewrite lookup_insert_ne by done. intros Hsome.
    destruct (Hb _ Hsome) as (n & h & -> & Hle). exists n, h. split; [done|lia].
Qed.

(** the entry [generateAddress] writes for [content] *)
Definition content_entry (e : Env.t) (content scheme : string) (k : Kernel.t)
    : ContentEntry.t :=
  ContentEntry.mk content (Env.timestamp e 0) (Identity.did (Kernel.identity k)) scheme
    None.

Definition generate_payload (address scheme hash : string) : JSON :=
  JObj [("address", JStr address); ("scheme", JStr scheme);
        ("hash", JStr (Js.slice_to 16 hash +:+ "..."))].

Lemma generateAddress_xhe e content st k :
  content ≠ "" →
  let hash := sha256 content in
  let address := "xhe://" +:+ hash in
  let contentStore := <[hash := content_entry e content "xhe" k]> (Kernel.contentStore k) in
  let preview :=
    Js.slice_to 50 content +:+ (if (50 <? String.length content)%nat then "..." else "") in
  let addressIndex :=
    <[address := IndexEntry.mk hash "xhe" (Env.timestamp e 0) preview]>
      (Kernel.addressIndex k) in
  let before_pulse :=
    (Store.set_ADDRESS_INDEX (Some addressIndex)
       (Store.set_CONTENT_STORE (Some contentStore) st),
     Kernel.set_addressIndex addressIndex (Kernel.set_contentStore contentStore k)) in
  generateAddress e content "xhe" None (st, k)
  = Ok (Generated.mk address hash (Env.timestamp e 0)
          (Pulse.id (emitted e 1 ADDRESS_GENERATE (generate_payload address "xhe" hash)
                       before_pulse)))
       (_emitPulse e 1 ADDRESS_GENERATE (generate_payload address "xhe" hash)
          before_pulse).2.
Proof.
  intros Hcontent. apply truthy_string_true in Hcontent.
  unfold generateAddress. rewrite Hcontent. reflexivity.
Qed.

(** C6, as amended.  For non-empty content and a pulse store whose keys
    are bounded by the counter, two successive calls of
    [generateAddress(content, "xhe")] both return the address
    ["xhe://" + sha256(content)] and the hash [sha256(content)]; each call
    writes the entry of that hash into the content store and persists it,
    and each adds one pulse, so the pulse count grows by 2.  The entry
    written by the second call has the same content, author and scheme as
    the first; its timestamp is that of the second call. *)
Theorem generateAddress_twice (e1 e2 : Env.t) (content : string) (st : Store.t)
    (k : Kernel.t) :
  content ≠ "" →
  pulse_keys_bounded k →
  ∃ r1 st1 k1 r2 st2 k2,
    generateAddress e1 content "xhe" None (st, k) = Ok r1 (st1, k1)
    ∧ generateAddress e2 content "xhe" None (st1, k1) = Ok r2 (st2, k2)
    ∧ Generated.address r1 = "xhe://" +:+ sha256 content
    ∧ Generated.address r2 = Generated.address r1
    ∧ Generated.hash r1 = sha256 content
    ∧ Generated.hash r2 = Generated.hash r1
    ∧ pulseCount k1 = S (pulseCount k)
    ∧ pulseCount k2 = S (S (pulseCount k))
    ∧ Kernel.contentStore k1
      = <[sha256 content := content_entry e1 content "xhe" k]> (Kernel.contentStore k)
    ∧ Store.CONTENT_STORE st1 = Some (Kernel.contentStore k1)
    ∧ Kernel.contentStore k2
      = <[sha256 content := content_entry e2 content "xhe" k1]> (Kernel.contentStore k1)
    ∧ Store.CONTENT_STORE st2 = Some (Kernel.contentStore k2)
    ∧ dom (Kernel.contentStore k2) = dom (Kernel.contentStore k1)
    ∧ ContentEntry.content (content_entry e2 content "xhe" k1) = content
    ∧ ContentEntry.content (content_entry e1 content "xhe" k) = content
    ∧ ContentEntry.author (content_entry e2 content "xhe" k1)
      = ContentEntry.author (content_entry e1 content "xhe" k)
    ∧ ContentEntry.scheme (content_entry e2 content "xhe" k1)
      = ContentEntry.scheme (content_entry e1 content "xhe" k)
    ∧ ContentEntry.timestamp (content_entry e2 content "xhe" k1) = Env.timestamp e2 0.
Proof.
  intros Hcontent Hb.
  pose proof (generateAddress_xhe e1 content st k Hcontent) as H1. cbv zeta in H1.
  set (s0 := (Store.set_ADDRESS_INDEX _ _, Kernel.set_addressIndex _ _)) in H1.
  assert (Hb0 : pulse_keys_bounded s0.2) by exact Hb.
  destruct s0 as [st0 k0] eqn:Hs0.
  assert (Hk0 : k0 = s0.2) by (by rewrite Hs0). assert (Hst0 : st0 = s0.1) by (by rewrite Hs0).
  pose proof (emit_count e1 1 ADDRESS_GENERATE
                (generate_payload ("xhe://" +:+ sha256 content) "xhe" (sha256 content))
                st0 k0 Hb0) as Hc1.
  pose proof (emit_keys_bounded e1 1 ADDRESS_GENERATE
                (generate_payload ("xhe://" +:+ sha256 content) "xhe" (sha256 content))
                st0 k0 Hb0) as Hb1.
  rewrite _emitPulse_eq in H1, Hc1, Hb1.
  set (p1 := emitted _ _ _ _ _) in H1, Hc1, Hb1. clearbody p1.
  cbn -[sha256] in H1, Hc1, Hb1.
  match type of H1 with _ = Ok ?r (?a, ?b) => set (r1 := r) in *; set (st1 := a) in *;
    set (k1 := b) in * end.
  pose proof (generateAddress_xhe e2 content st1 k1 Hcontent) as H2. cbv zeta in H2.
  set (s2 := (Store.set_ADDRESS_INDEX _ _, Kernel.set_addressIndex _ _)) in H2.
  assert (Hb2 : pulse_keys_bounded s2.2) by exact Hb1.
  destruct s2 as [st2' k2'] eqn:Hs2.
  assert (Hk2 : k2' = s2.2) by (by rewrite Hs2).
  assert (Hst2 : st2' = s2.1) by (by rewrite Hs2).
  pose proof (emit_count e2 1 ADDRESS_GENERATE
                (generate_payload ("xhe://" +:+ sha256 content) "xhe" (sha256 content))
                st2' k2' Hb2) as Hc2.
  rewrite _emitPulse_eq in H2, Hc2.
  set (p2 := emitted _ _ _ _ _) in H2, Hc2. clearbody p2.
  cbn -[sha256] in H2, Hc2.
  eexists _, _, _, _, _, _. split; [exact H1|]. split; [exact H2|].
  subst r1 st1 k1. unfold pulseCount in *. cbn -[sha256] in *.
  rewrite Hk2, Hst2, Hk0, Hst0 in *. clear Hk2 Hst2 Hk0 Hst0 Hs0 Hs2.
  cbn -[sha256] in *.
  split_and!; try done.
  - by rewrite Hc2, Hc1.
  - by rewrite !dom_insert_L, (assoc_L (∪)), (idemp_L (∪)).
Qed.

End Generate.

Lemma generateAddress_twice_witness :
  "hello world" ≠ ""
  ∧ pulse_keys_bounded Sample.state.2
  ∧ ∃ r1 s1 r2 s2,
      generateAddress (H := Sample.platform) (Sample.env 2) "hello world" "xhe" None
        Sample.state = Ok r1 s1
      ∧ generateAddress (H := Sample.platform) (Sample.env 3) "hello world" "xhe" None s1
        = Ok r2 s2
      ∧ Generated.address r1 = "xhe://sha256(hello world)"
      ∧ Generated.address r2 = "xhe://sha256(hello world)"
      ∧ pulseCount s2.2 = S (S (pulseCount Sample.state.2)).
Proof.
  assert (Hb : pulse_keys_bounded Sample.state.2).
  { intros pid [p Hp]. vm_compute in Hp. discriminate. }
  split; [done|]. split; [exact Hb|].
  destruct (generateAddress_twice (H := Sample.platform) (Sample.env 2) (Sample.env 3)
              "hello world" Sample.state.1 Sample.state.2 ltac:(done) Hb)
    as (r1 & st1 & k1 & r2 & st2 & k2 & H1 & H2 & Ha1 & Ha2 & _ & _ & _ & Hc & _).
  exists r1, (st1, k1), r2, (st2, k2).
  split; [exact H1|]. split; [exact H2|]. split; [exact Ha1|].
  split; [by rewrite Ha2|exact Hc].
Defined.

(** C6 as stated fails in its last part: the second call replaces the
    stored entry by one with the second call's timestamp. *)
Lemma generateAddress_second_write_counterexample :
  let s1 := state_after (generateAddress (H := Sample.platform) (Sample.env 2)
                           "hello world" "xhe" None Sample.state) in
  let s2 := state_after (generateAddress (H := Sample.platform) (Sample.env 3)
                           "hello world" "xhe" None s1) in
  Kernel.contentStore s1.2 !! "sha256(hello world)"
  = Some (ContentEntry.mk "hello world" "T2.0" "did:xhe:R0.0" "xhe" None)
  ∧ Kernel.contentStore s2.2 !! "sha256(hello world)"
    = Some (ContentEntry.mk "hello world" "T3.0" "did:xhe:R0.0" "xhe" None)
  ∧ Kernel.contentStore s1.2 !! "sha256(hello world)"
    ≠ Kernel.contentStore s2.2 !! "sha256(hello world)".
Proof. vm_compute. split_and!; [reflexivity|reflexivity|discriminate]. Qed.

(** ** Construction *)

Section Boot.
Context `{Platform}.

(** what the constructor leaves in an empty store *)
Definition half_initialised (e : Env.t) : Store.t :=
  Store.set_IDENTITY
    (Some (Identity.mk ("did:xhe:" +:+ Env.randomHex e 0) (Env.randomHex e 1)
             (Env.timestamp e 2) 1))
    (Store.set_KERNEL_META
       (Some (KernelMeta.mk "1.0.0" (Env.timestamp e 0) (Env.timestamp e 1)))
       Store.empty).

(** C5, on the code.  Over an empty store [new XHEKernel()] throws: the
    identity is created before [this.slipLedger] is assigned.  No kernel is
    constructed; kernel metadata and identity are persisted by then, and
    neither a ledger nor a pulse is.  The next construction over that store
    succeeds with balance 100 but finds the metadata and emits no
    KERNEL_INIT pulse: the pulse store stays empty and the counter at 0. *)
Theorem boot_on_empty_store (e e' : Env.t) :
  _initializeKernel e Store.empty
  = Throw (TypeError "Cannot read properties of undefined (reading 'balances')")
      (half_initialised e)
  ∧ Store.SLIP_LEDGER (half_initialised e) = None
  ∧ Store.PULSE_STORE (half_initialised e) = None
  ∧ ∃ k st,
      _initializeKernel e' (half_initialised e) = Ok k st
      ∧ Identity.did (Kernel.identity k) = "did:xhe:" +:+ Env.randomHex e 0
      ∧ getSlipBalance None k = 100
      ∧ Kernel.pulseStore k = ∅
      ∧ Kernel._pulseSequence k = 0%N
      ∧ Store.PULSE_STORE st = None.
Proof.
  split; [reflexivity|]. split; [reflexivity|]. split; [reflexivity|].
  unfold _initializeKernel, half_initialised, _loadOrCreateIdentity.
  cbn -[String.append Js.truthy_string].
  change (Js.truthy_string ("did:xhe:" +:+ Env.randomHex e 0)) with true.
  cbn -[String.append]. rewrite lookup_empty. cbn -[String.append].
  eexists _, _. split; [reflexivity|]. cbn -[String.append].
  split_and!; try done.
  unfold getSlipBalance. cbn -[String.append]. by rewrite lookup_insert_eq.
Qed.

End Boot.

(** a kernel that has given all its slips away is granted the genesis
    balance again by the next page load *)
Example reboot_grants_again_at_zero :
  let w :=
    run (H := Sample.platform)
      [(Sample.env 0, Boot); (Sample.env 1, Boot);
       (Sample.env 2, TransferSlips "did:xhe:bob" 100 "")] World.initial in
  getSlipBalance None (Sample.kernel_of w Sample.blank) = 0
  ∧ getSlipBalance None
      (Sample.kernel_of (run (H := Sample.platform) [(Sample.env 3, Boot)] w)
         Sample.blank) = 100
  ∧ total_balance (world_ledger w) = 100
  ∧ total_balance (world_ledger (run (H := Sample.platform) [(Sample.env 3, Boot)] w))
    = 200.
Proof. by vm_compute. Qed.

(** ** Ledger conservation *)


(** the ledger after that grant *)
Definition granted (ledger : SlipLedger.t) (did : string) : SlipLedger.t :=
  if Js.truthy_number (SlipLedger.balances ledger !! did) then ledger
  else SlipLedger.mk (<[did := 100]> (SlipLedger.balances ledger))
         (SlipLedger.transactions ledger).





Section Conservation.
Context `{Platform}.

#[local] Arguments Js.slice_to : simpl never.
#[local] Arguments Js.slice_from : simpl never.
#[local] Arguments Js.slice : simpl never.
#[local] Arguments String.append : simpl never.
#[local] Arguments Js.padStart : simpl never.
#[local] Arguments Js.truthy_string : simpl never.
#[local] Arguments String.length : simpl never.
#[local] Arguments _emitPulse : simpl never.
#[local] Arguments loadState : simpl never.
#[local] Arguments emitted : simpl never.

(** unfold a call up to its pulse emission, then the emission *)
Ltac emit := cbn; rewrite ?_emitPulse_eq; cbn.









(** [_createIdentity(false)] on a constructed kernel: the new identity is
    saved and its genesis grant made and saved *)
Lemma _createIdentity_live e t r st k :
  let identity :=
    Identity.mk ("did:xhe:" +:+ Env.randomHex e r) (Env.randomHex e (S r))
      (Env.timestamp e t) 1 in
  let ledger := granted (Kernel.slipLedger k) (Identity.did identity) in
  ∃ st',
    _createIdentity e t r false (st, This.of_kernel k)
    = Ok identity
        (st', This.mk (Some (Kernel.kernelMeta k)) (Kernel._pulseSequence k)
                (Some (Kernel.identity k)) (Some ledger) (Some (Kernel.pulseStore k)))
    ∧ Store.IDENTITY st' = Some identity
    ∧ loadState (Store.SLIP_LEDGER st') SlipLedger.empty
      = (if Js.truthy_number
              (SlipLedger.balances (Kernel.slipLedger k) !! Identity.did identity)
         then loadState (Store.SLIP_LEDGER st) SlipLedger.empty else ledger)
    ∧ Store.PULSE_STORE st' = Store.PULSE_STORE st
    ∧ Store.PULSE_SEQUENCE st' = Store.PULSE_SEQUENCE st
    ∧ Store.SOCIAL_GRAPH st' = Store.SOCIAL_GRAPH st.
Proof.
  intros identity ledger. subst ledger. unfold _createIdentity, granted. cbn.
  destruct (Js.truthy_number _) eqn:Ht; cbn.
  - eexists. split; [reflexivity|]. by cbn.
  - eexists. split; [reflexivity|]. by cbn.
Qed.











(** inside the constructor [_createIdentity] throws, having saved the
    identity only *)
Lemma _createIdentity_in_constructor e t r emitPulse st meta seq :
  ∃ st',
    _createIdentity e t r emitPulse (st, This.mk meta seq None None None)
    = Throw (TypeError "Cannot read properties of undefined (reading 'balances')")
        (st', This.mk meta seq None None None)
    ∧ st' = Store.set_IDENTITY (Some (Identity.mk ("did:xhe:" +:+ Env.randomHex e r)
              (Env.randomHex e (S r)) (Env.timestamp e t) 1)) st.
Proof. eexists. split; reflexivity. Qed.







End Conservation.

Section ConservationRuns.
Context `{Platform}.





End ConservationRuns.


(** ** Pulse sequence numbers *)

(** the stored pulses are numbered within [1..n]: each carries the
    sequence string of such a number and is filed under its id
    [sequence/hash] *)
Definition pulses_numbered (n : N) (m : gmap string Pulse.t) : Prop :=
  ∀ pid p, m !! pid = Some p →
    ∃ i, (1 ≤ i ≤ n)%N ∧ Pulse.sequence p = sequence_string i
         ∧ pid = sequence_string i +:+ "/" +:+ Pulse.hash p ∧ Pulse.id p = pid.

(** no two stored pulses carry the same sequence number *)
Definition pulses_distinct (m : gmap string Pulse.t) : Prop :=
  ∀ pid1 p1 pid2 p2, m !! pid1 = Some p1 → m !! pid2 = Some p2 →
    Pulse.sequence p1 = Pulse.sequence p2 → pid1 = pid2.

(** every number of [1..n] is carried by a stored pulse: no gaps *)
Definition pulses_complete (n : N) (m : gmap string Pulse.t) : Prop :=
  ∀ i, (1 ≤ i ≤ n)%N → ∃ pid p, m !! pid = Some p ∧ Pulse.sequence p = sequence_string i.

(** the counter and the pulse store of a world: the live kernel's, or the
    persisted ones when no kernel is constructed *)
Definition world_sequence (w : World.t) : N :=
  match World.kernel w with
  | Some k => Kernel._pulseSequence k
  | None => loadState (Store.PULSE_SEQUENCE (World.store w)) 0%N
  end.

Definition world_pulses (w : World.t) : gmap string Pulse.t :=
  match World.kernel w with
  | Some k => Kernel.pulseStore k
  | None => loadState (Store.PULSE_STORE (World.store w)) ∅
  end.

(** a call of [generateAddress] that allocates a sequence number for the
    address itself *)
Definition allocates (op : Op) : bool :=
  match op with
  | GenerateAddress _ scheme sequence =>
      bool_decide (scheme = URI_SCHEMES PULSE)
      && match Js.or_null sequence with Some _ => false | None => true end
  | _ => false
  end.

Definition is_import (op : Op) : bool :=
  match op with ImportKernelState _ _ => true | _ => false end.

Section Sequence.
Context `{Platform}.

#[local] Arguments Js.slice_to : simpl never.
#[local] Arguments Js.slice_from : simpl never.
#[local] Arguments Js.slice : simpl never.
#[local] Arguments String.append : simpl never.
#[local] Arguments Js.padStart : simpl never.
#[local] Arguments Js.truthy_string : simpl never.
#[local] Arguments String.length : simpl never.
#[local] Arguments _emitPulse : simpl never.
#[local] Arguments emitted : simpl never.
#[local] Arguments loadState : simpl never.
#[local] Arguments sequence_string : simpl never.

Ltac emit := cbn; rewrite ?_emitPulse_eq; cbn.

(** [p] is a pulse stamped with number [i] *)
Definition stamped (i : N) (p : Pulse.t) : Prop :=
  Pulse.sequence p = sequence_string i
  ∧ Pulse.id p = Pulse.sequence p +:+ "/" +:+ Pulse.hash p.

Definition pulses_ok (gapless : bool) (n : N) (m : gmap string Pulse.t) : Prop :=
  pulses_numbered n m ∧ pulses_distinct m ∧ (gapless = true → pulses_complete n m).

Lemma pulses_ok_empty gapless : pulses_ok gapless 0 ∅.
Proof.
  split_and!.
  - intros pid p Hp. by rewrite lookup_empty in Hp.
  - intros pid1 p1 pid2 p2 Hp. by rewrite lookup_empty in Hp.
  - intros _ i Hi. lia.
Qed.

Lemma stamped_fresh n m p :
  pulses_numbered n m → stamped (n + 1) p → m !! Pulse.id p = None.
Proof.
  intros Hnum [Hseq Hid]. apply eq_None_not_Some. intros [q Hq].
  destruct (Hnum _ _ Hq) as (i & Hi & _ & Hpid & _).
  rewrite Hid, Hseq in Hpid. apply pulse_id_inj in Hpid as [Hn _]. lia.
Qed.

(** storing the pulse stamped with the next number keeps the numbering *)
Lemma pulses_ok_emit gapless n m p :
  pulses_ok gapless n m → stamped (n + 1) p →
  pulses_ok gapless (n + 1) (<[Pulse.id p := p]> m).
Proof.
  intros (Hnum & Hdis & Hcom) Hp.
  pose proof (stamped_fresh n m p Hnum Hp) as Hfresh.
  destruct Hp as [Hseq Hid]. split_and!.
  - intros pid q. destruct (decide (Pulse.id p = pid)) as [<-|Hne].
    + rewrite lookup_insert_eq. intros [= <-]. exists (n + 1)%N.
      split_and!; [lia|lia|done|by rewrite Hid, Hseq|done].
    + rewrite lookup_insert_ne by done. intros Hq.
      destruct (Hnum _ _ Hq) as (i & Hi & ?). exists i. split; [lia|done].
  - intros pid1 p1 pid2 p2.
    destruct (decide (Pulse.id p = pid1)) as [<-|Hne1],
             (decide (Pulse.id p = pid2)) as [<-|Hne2]; [done|..].
    + rewrite lookup_insert_eq, lookup_insert_ne by done. intros [= <-] Hq Heq.
      destruct (Hnum _ _ Hq) as (i & Hi & Hsi & _).
      rewrite Hseq, Hsi in Heq. apply sequence_string_inj in Heq. lia.
    + rewrite lookup_insert_eq, lookup_insert_ne by done. intros Hq [= <-] Heq.
      destruct (Hnum _ _ Hq) as (i & Hi & Hsi & _).
      rewrite Hseq, Hsi in Heq. apply sequence_string_inj in Heq. lia.
    + rewrite !lookup_insert_ne by done. apply Hdis.
  - intros Hg i Hi. destruct (decide (i = n + 1)%N) as [->|Hne].
    + exists (Pulse.id p), p. by rewrite lookup_insert_eq.
    + destruct (Hcom Hg i ltac:(lia)) as (pid & q & Hq & Hsq).
      exists pid, q. split; [|done]. rewrite lookup_insert_ne; [done|].
      intros <-. congruence.
Qed.

(** allocating a number without storing a pulse keeps numbering and
    distinctness, and opens a gap *)
Lemma pulses_ok_allocate n m : pulses_ok false n m → pulses_ok false (n + 1) m.
Proof.
  intros (Hnum & Hdis & _). split_and!; [|done|done].
  intros pid p Hp. destruct (Hnum _ _ Hp) as (i & Hi & ?). exists i.
  split; [lia|done].
Qed.

Lemma pulses_ok_weaken gapless n m : pulses_ok gapless n m → pulses_ok false n m.
Proof. intros (? & ? & _). by split_and!. Qed.

(** the persisted and the live counter and pulse store *)
Definition stored_view (s : State) : N * gmap string Pulse.t :=
  (loadState (Store.PULSE_SEQUENCE s.1) 0%N, loadState (Store.PULSE_STORE s.1) ∅).

Definition live_view (s : State) : N * gmap string Pulse.t :=
  (Kernel._pulseSequence s.2, Kernel.pulseStore s.2).

(** how a call moves counter and pulse store; [alloc] tells whether the
    call may allocate a number for an address *)
Inductive pulse_effect (alloc : bool) (s s' : State) : Prop :=
| pe_none :
    stored_view s' = stored_view s → live_view s' = live_view s →
    pulse_effect alloc s s'
| pe_emit p :
    stamped (Kernel._pulseSequence s.2 + 1) p →
    live_view s' = ((Kernel._pulseSequence s.2 + 1)%N,
                    <[Pulse.id p := p]> (Kernel.pulseStore s.2)) →
    stored_view s' = live_view s' → pulse_effect alloc s s'
| pe_allocate_emit p :
    alloc = true →
    stamped (Kernel._pulseSequence s.2 + 1 + 1) p →
    live_view s' = ((Kernel._pulseSequence s.2 + 1 + 1)%N,
                    <[Pulse.id p := p]> (Kernel.pulseStore s.2)) →
    stored_view s' = live_view s' → pulse_effect alloc s s'
| pe_reset :
    live_view s' = (0%N, ∅) → stored_view s' = live_view s' → pulse_effect alloc s s'.

Lemma emitted_stamped e t type payload st k :
  stamped (Kernel._pulseSequence k + 1) (emitted e t type payload (st, k)).
Proof. split; reflexivity. Qed.

Ltac by_emit :=
  emit;
  match goal with
  | |- pulse_effect _ _ (Store.set_PULSE_STORE (Some (<[_ := ?p]> _)) _, _) =>
      apply (pe_emit _ _ _ p); [split; reflexivity|reflexivity|reflexivity]
  end.

Ltac by_none := apply pe_none; reflexivity.

(** decide the comparisons of the scheme with the scheme names *)
Ltac schemes :=
  repeat match goal with
  | |- context [bool_decide (?a = ?b)] =>
      first [rewrite (bool_decide_eq_true_2 (a = b)) by done
            |rewrite (bool_decide_eq_false_2 (a = b)) by done]
  end.

Lemma call_pulse_effect e op st k :
  is_import op = false →
  pulse_effect (allocates op) (st, k) (call e op (st, k)).
Proof.
  intros Himport. destruct op; try done; cbn [call allocates].
  - (* boot is no call *) by_none.
  - (* generateAddress *)
    unfold generateAddress. destruct (Js.truthy_string content); [|by_none]. cbn.
    destruct (decide (scheme = "xhe")) as [->|Hxhe]; [schemes; by_emit|].
    destruct (decide (scheme = "did:xhe")) as [->|Hdid]; [schemes; by_emit|].
    destruct (decide (scheme = "pulse")) as [->|Hpulse].
    { schemes. cbn. destruct (Js.or_null sequence); [by_emit|].
      emit.
      match goal with
      | |- pulse_effect _ _ (Store.set_PULSE_STORE (Some (<[_ := ?p]> _)) _, _) =>
          apply (pe_allocate_emit _ _ _ p);
            [reflexivity|split; reflexivity|reflexivity|reflexivity]
      end. }
    destruct (decide (scheme = "ipfs")) as [->|Hipfs]; [schemes; by_emit|].
    schemes. by_none.
  - (* resolveAddress *)
    unfold resolveAddress. destruct (parseAddress address); [by_emit|by_none].
  - (* clearAddressIndex *) by_none.
  - (* regenerateIdentity *)
    unfold regenerateIdentity.
    set (k0 := Kernel.set_identityHistory _ k).
    set (st0 := saveState Store.set_IDENTITY_HISTORY _ st).
    destruct (_createIdentity_live e 1 0 st0 k0) as (st' & -> & _ & _ & Hp & Hs & _).
    emit.
    match goal with
    | |- pulse_effect _ _ (Store.set_PULSE_STORE (Some (<[_ := ?p]> _)) _, _) =>
        apply (pe_emit _ _ _ p); [split; reflexivity|reflexivity|reflexivity]
    end.
  - (* mintSlips *)
    unfold mintSlips. destruct (amount <=? 0); [by_none|by_emit].
  - (* transferSlips *)
    unfold transferSlips. destruct (amount <=? 0); [by_none|]. cbn.
    destruct (getSlipBalance None k <? amount); [by_none|by_emit].
  - (* createPost *)
    unfold createPost. destruct (Js.truthy_string content); [|by_none]. cbn.
    destruct (Js.or_null (PostOptions.channel options)) as [ch|]; cbn; [|by_emit].
    destruct (Kernel.channels k !! ch); by_emit.
  - (* createChannel *) unfold createChannel. by_emit.
  - (* follow *)
    unfold follow. cbn. case_bool_decide; [by_none|].
    destruct (Js.includes _ did); [by_none|]. destruct (Js.includes _ did); [by_none|].
    by_emit.
  - (* unfollow *) unfold unfollow. by_emit.
  - (* resetKernel *)
    unfold resetKernel. rewrite _emitPulse_eq. set (p := emitted _ _ _ _ _). clearbody p.
    destruct preserveIdentity; [by apply pe_reset|].
    cbn -[_createIdentity This.of_kernel].
    match goal with |- context [_createIdentity e 2 0 false (?st0, This.of_kernel ?k0)] =>
      destruct (_createIdentity_live e 2 0 st0 k0) as (st' & -> & _ & _ & Hp & Hs & _)
    end.
    apply pe_reset; [reflexivity|]. unfold stored_view. cbn in *. by rewrite Hp, Hs.
Qed.

Lemma _initializeKernel_pulses e st :
  match _initializeKernel e st with
  | Throw _ st' =>
      Store.PULSE_SEQUENCE st' = Store.PULSE_SEQUENCE st
      ∧ Store.PULSE_STORE st' = Store.PULSE_STORE st
  | Ok k st' =>
      let n := loadState (Store.PULSE_SEQUENCE st) 0%N in
      let m := loadState (Store.PULSE_STORE st) ∅ in
      stored_view (st', k) = live_view (st', k)
      ∧ match Store.KERNEL_META st with
        | Some _ => live_view (st', k) = (n, m)
        | None =>
            ∃ p, stamped (n + 1) p ∧ Pulse.type p = KERNEL_INIT
                 ∧ live_view (st', k) = ((n + 1)%N, <[Pulse.id p := p]> m)
        end
  end.
Proof.
  unfold _initializeKernel, _loadOrCreateIdentity, _createIdentity, stored_view,
    live_view, loadState.
  destruct st as [meta ident hist cs ps seq ai ledger sg fs chs].
  destruct meta as [m|], ident as [i|]; cbn; try done.
  - destruct (Js.truthy_string (Identity.did i)); cbn; [|done].
    destruct (Js.truthy_number _); cbn; done.
  - destruct (Js.truthy_string (Identity.did i)); cbn; [|done].
    destruct (Js.truthy_number _); cbn.
    + split; [done|].
      match goal with |- context [<[_ := ?q]> _] => exists q end.
      split_and!; [split| |]; reflexivity.
    + split; [done|].
      match goal with |- context [<[_ := ?q]> _] => exists q end.
      split_and!; [split| |]; reflexivity.
Qed.

(** the invariant of a run without import: the persisted counter and pulse
    store are the live ones, and the stored pulses are numbered *)
Definition pulse_inv (gapless : bool) (w : World.t) : Prop :=
  (loadState (Store.PULSE_SEQUENCE (World.store w)) 0%N,
   loadState (Store.PULSE_STORE (World.store w)) ∅)
  = (world_sequence w, world_pulses w)
  ∧ pulses_ok gapless (world_sequence w) (world_pulses w).

Lemma pulse_inv_initial gapless : pulse_inv gapless World.initial.
Proof. split; [done|apply pulses_ok_empty]. Qed.

Lemma pulse_inv_boot gapless w e :
  pulse_inv gapless w → pulse_inv gapless (step w (e, Boot)).
Proof.
  destruct w as [st kernel]. unfold pulse_inv, step, world_sequence, world_pulses.
  cbn [fst snd World.store World.kernel]. intros [Hsync Hok].
  assert (Hloaded : pulses_ok gapless (loadState (Store.PULSE_SEQUENCE st) 0%N)
                      (loadState (Store.PULSE_STORE st) ∅)).
  { injection Hsync as -> ->. by destruct kernel. }
  pose proof (_initializeKernel_pulses e st) as Hinit.
  destruct (_initializeKernel e st) as [k st'|exn st']; cbn [World.store World.kernel].
  - cbv zeta in Hinit. destruct Hinit as [Hs Hlive]. split; [exact Hs|].
    destruct (Store.KERNEL_META st).
    + injection Hlive as -> ->. done.
    + destruct Hlive as (p & Hp & _ & Hlive). injection Hlive as -> ->.
      by apply pulses_ok_emit.
  - destruct Hinit as [-> ->]. done.
Qed.

Lemma pulse_effect_inv gapless alloc st k st' k' :
  pulse_effect alloc (st, k) (st', k') →
  (gapless = true → alloc = false) →
  pulse_inv gapless (World.mk st (Some k)) →
  pulse_inv gapless (World.mk st' (Some k')).
Proof.
  intros Heff Halloc [Hsync Hok].
  unfold pulse_inv, world_sequence, world_pulses in *.
  cbn [fst snd World.store World.kernel] in *.
  destruct Heff as [Hs Hl|p Hp Hl Hs|p Ha Hp Hl Hs|Hl Hs];
    unfold stored_view, live_view in *; cbn [fst snd] in *.
  - injection Hl as -> ->. split; [by rewrite Hs|done].
  - rewrite Hl in Hs. injection Hl as -> ->. split; [done|by apply pulses_ok_emit].
  - rewrite Hl in Hs. injection Hl as -> ->. split; [done|].
    destruct gapless; [rewrite Halloc in Ha by done; discriminate|].
    apply pulses_ok_emit; [by apply pulses_ok_allocate|done].
  - rewrite Hl in Hs. injection Hl as -> ->. split; [done|apply pulses_ok_empty].
Qed.

Lemma pulse_inv_step gapless w e op :
  is_import op = false → (gapless = true → allocates op = false) →
  pulse_inv gapless w → pulse_inv gapless (step w (e, op)).
Proof.
  intros Himport Halloc Hinv.
  destruct op; try discriminate Himport; try (by apply pulse_inv_boot).
  all: destruct w as [st [k|]]; [|exact Hinv].
  all: unfold step; cbn [fst snd World.store World.kernel].
  all: match goal with |- pulse_inv _ (World.of_state (call ?e0 ?op0 _)) =>
         pose proof (call_pulse_effect e0 op0 st k Himport) as Heff;
         destruct (call e0 op0 (st, k)) as [st' k'] end.
  all: by eapply pulse_effect_inv.
Qed.

Lemma pulse_inv_run gapless ops w :
  Forall (λ eo : Env.t * Op,
            is_import eo.2 = false ∧ (gapless = true → allocates eo.2 = false)) ops →
  pulse_inv gapless w → pulse_inv gapless (run ops w).
Proof.
  revert w. induction ops as [|[e op] ops IH]; intros w Hops Hinv; [done|].
  apply Forall_cons in Hops as [[Hi Ha] Hops]. cbn [run foldl].
  apply IH; [done|]. by apply pulse_inv_step.
Qed.

(** C2, as amended.  After every run without import from the empty store:
    the persisted counter and pulse store are the live ones, so that a
    restart over a store that has its metadata reloads exactly them; every
    stored pulse carries the sequence string of a number between 1 and the
    counter and is filed under [sequence/hash]; no two stored pulses carry
    the same number; and when no call of [generateAddress] had to allocate a
    number for a pulse-scheme address, every number from 1 to the counter is
    on a stored pulse.  (A reset empties the pulse store and sets the
    counter to 0: numbering starts again at 1.) *)
Theorem pulse_sequence_numbers (ops : list (Env.t * Op)) :
  Forall (λ eo : Env.t * Op, is_import eo.2 = false) ops →
  let w := run ops World.initial in
  loadState (Store.PULSE_SEQUENCE (World.store w)) 0%N = world_sequence w
  ∧ loadState (Store.PULSE_STORE (World.store w)) ∅ = world_pulses w
  ∧ (∀ e k st', Store.KERNEL_META (World.store w) ≠ None →
       _initializeKernel e (World.store w) = Ok k st' →
       Kernel._pulseSequence k = world_sequence w
       ∧ Kernel.pulseStore k = world_pulses w)
  ∧ pulses_numbered (world_sequence w) (world_pulses w)
  ∧ pulses_distinct (world_pulses w)
  ∧ (Forall (λ eo : Env.t * Op, allocates eo.2 = false) ops →
     pulses_complete (world_sequence w) (world_pulses w)).
Proof.
  intros Hops w.
  assert (Hinv : pulse_inv false w).
  { apply pulse_inv_run; [|apply pulse_inv_initial].
    eapply Forall_impl; [exact Hops|]. by intros eo Hi. }
  destruct Hinv as [Hsync (Hnum & Hdis & _)]. injection Hsync as Hs1 Hs2.
  split_and!; try done.
  - intros e k st' Hmeta Hboot.
    pose proof (_initializeKernel_pulses e (World.store w)) as Hinit.
    rewrite Hboot in Hinit. cbv zeta in Hinit. destruct Hinit as [_ Hlive].
    destruct (Store.KERNEL_META (World.store w)); [|done].
    injection Hlive as -> ->. by rewrite Hs1, Hs2.
  - intros Hno.
    assert (Hinv : pulse_inv true w).
    { apply pulse_inv_run; [|apply pulse_inv_initial].
      apply Forall_forall. intros eo Hin.
      rewrite Forall_forall in Hops, Hno. split; [by apply Hops|]. intros _. by apply Hno. }
    destruct Hinv as [_ (_ & _ & Hcom)]. by apply Hcom.
Qed.

End Sequence.

Lemma pulse_sequence_numbers_witness :
  let ops := [(Sample.env 0, Boot); (Sample.env 1, Boot);
              (Sample.env 2, MintSlips 5 "USER_MINT");
              (Sample.env 3, ResolveAddress "xhe://abc")] in
  Forall (λ eo : Env.t * Op, is_import eo.2 = false) ops
  ∧ Forall (λ eo : Env.t * Op, allocates eo.2 = false) ops
  ∧ world_sequence (run (H := Sample.platform) ops World.initial) = 2%N
  ∧ pulses_complete 2 (world_pulses (run (H := Sample.platform) ops World.initial)).
Proof.
  assert (Hi : Forall (λ eo : Env.t * Op, is_import eo.2 = false)
                 [(Sample.env 0, Boot); (Sample.env 1, Boot);
                  (Sample.env 2, MintSlips 5 "USER_MINT");
                  (Sample.env 3, ResolveAddress "xhe://abc")])
    by (repeat constructor).
  assert (Ha : Forall (λ eo : Env.t * Op, allocates eo.2 = false)
                 [(Sample.env 0, Boot); (Sample.env 1, Boot);
                  (Sample.env 2, MintSlips 5 "USER_MINT");
                  (Sample.env 3, ResolveAddress "xhe://abc")])
    by (repeat constructor).
  split; [exact Hi|]. split; [exact Ha|]. split; [reflexivity|].
  exact (proj2 (proj2 (proj2 (proj2 (proj2
           (pulse_sequence_numbers (H := Sample.platform) _ Hi))))) Ha).
Defined.

(** C2 as stated fails: a pulse-scheme [generateAddress] without a given
    sequence takes number 1 for the address and number 2 for its pulse, so
    number 1 is on no stored pulse. *)
Lemma pulse_sequence_gap_counterexample :
  let w := run (H := Sample.platform)
             [(Sample.env 0, Boot); (Sample.env 1, Boot);
              (Sample.env 2, GenerateAddress "x" "pulse" None)] World.initial in
  world_sequence w = 2%N
  ∧ (Pulse.sequence <$> (map_to_list (world_pulses w)).*2) = ["00000002"]
  ∧ ¬ pulses_complete (world_sequence w) (world_pulses w).
Proof.
  cbv zeta. split; [reflexivity|]. split; [reflexivity|].
  intros Hcom. destruct (Hcom 1%N ltac:(vm_compute; split; discriminate))
    as (pid & p & Hp & Hseq).
  apply elem_of_map_to_list in Hp.
  assert (Hin : Pulse.sequence p ∈ (Pulse.sequence <$> (map_to_list (world_pulses
            (run (H := Sample.platform)
               [(Sample.env 0, Boot); (Sample.env 1, Boot);
                (Sample.env 2, GenerateAddress "x" "pulse" None)] World.initial))).*2)).
  { apply list_elem_of_fmap. exists p. split; [done|].
    apply list_elem_of_fmap. by exists (pid, p). }
  rewrite Hseq in Hin. vm_compute in Hin.
  apply list_elem_of_singleton in Hin. discriminate Hin.
Qed.

(** * Further operations of the kernel *)

(** [arr.slice(-limit)]: the last [limit] elements for a positive [limit],
    everything for 0, and everything but the first [-limit] for a negative
    one *)
Definition slice_last {A} (limit : Z) (l : list A) : list A :=
  if 0 <? limit then drop (length l - Z.to_nat limit) l
  else drop (Z.to_nat (- limit)) l.

(** [getSlipHistory(limit = 50)] *)
Definition getSlipHistory (limit : Z) (k : Kernel.t) : list Tx.t :=
  let self := Identity.did (Kernel.identity k) in
  reverse
    (slice_last limit
       (List.filter
          (λ tx, bool_decide (Tx.from tx = Some self) || bool_decide (Tx.to tx = self))
          (SlipLedger.transactions (Kernel.slipLedger k)))).

(** what [getFeed] returns: a stored feed, [null], or the bare
    [{ posts: [] }] *)
Inductive FeedResult :=
| StoredFeed (feed : Feed.t)
| NullFeed
| BareFeed.

Definition FeedResult_posts (r : FeedResult) : option (list Post.t) :=
  match r with
  | StoredFeed f => Some (Feed.posts f)
  | NullFeed => None
  | BareFeed => Some []
  end.

(** the id of the personal feed of the current identity *)
Definition personalFeedId (k : Kernel.t) : string :=
  "personal_" +:+ Js.slice 8 16 (Identity.did (Kernel.identity k)).

(** [getFeed(feedId = null)] *)
Definition getFeed (feedId : option string) (k : Kernel.t) : FeedResult :=
  match Js.or_null feedId with
  | Some id =>
      match Kernel.feeds k !! id with
      | Some f => StoredFeed f
      | None => NullFeed
      end
  | None =>
      match Kernel.feeds k !! personalFeedId k with
      | Some f => StoredFeed f
      | None => BareFeed
      end
  end.

Module Stats.
Record t := mk {
  pulseCount : nat; addressCount : nat; contentCount : nat; slipBalance : Z;
  following : nat; postCount : nat; channelCount : nat; currentSequence : N }.
End Stats.

(** [getStats()] *)
Definition getStats (k : Kernel.t) : Stats.t :=
  Stats.mk (size (Kernel.pulseStore k)) (size (Kernel.addressIndex k))
    (size (Kernel.contentStore k)) (getSlipBalance None k)
    (length (SocialGraph.following (Kernel.socialGraph k)))
    (match FeedResult_posts (getFeed None k) with
     | Some posts => length posts
     | None => 0%nat
     end)
    (size (Kernel.channels k)) (Kernel._pulseSequence k).

(** the text an address of a scheme starts with *)
Definition scheme_prefix (s : URI_SCHEME) : string :=
  match s with
  | XHE => "xhe://" | DID_XHE => "did:xhe:" | PULSE => "pulse://" | IPFS => "ipfs://"
  | SLIP => "slip://" | FEED => "feed://" | CHANNEL => "channel://"
  end.

(** ** The address grammar *)

Section Grammar.
Context `{Platform}.

Lemma startsWith_nil s : Js.startsWith s "" = true.
Proof. by destruct s. Qed.

Lemma startsWith_cons c s p : Js.startsWith (String c s) (String c p) = Js.startsWith s p.
Proof. unfold Js.startsWith. simpl. by destruct (ascii_dec c c). Qed.

Lemma startsWith_head c d s p : c ≠ d → Js.startsWith (String c s) (String d p) = false.
Proof. intros Hne. unfold Js.startsWith. simpl. by destruct (ascii_dec d c). Qed.

Lemma append_cons c s r : String c s +:+ r = String c (s +:+ r).
Proof. reflexivity. Qed.

Lemma append_nil r : "" +:+ r = r.
Proof. reflexivity. Qed.

(** evaluate the prefix tests on a text that starts with known characters *)
Ltac prefix_tests :=
  rewrite ?append_cons, ?append_nil;
  repeat first [rewrite startsWith_cons | rewrite startsWith_nil
               | rewrite startsWith_head by done].

(** An address made of the prefix of a scheme other than pulse and any
    text parses back to that scheme and that text, provided trimming leaves
    the address as it is. *)
Theorem parseAddress_prefix (s : URI_SCHEME) (rest : string) :
  s ≠ PULSE →
  String_trim (scheme_prefix s +:+ rest) = scheme_prefix s +:+ rest →
  parseAddress (scheme_prefix s +:+ rest) = Some (Parsed.mk s None rest).
Proof.
  intros Hs Htrim. unfold parseAddress.
  destruct s; try done; cbn [scheme_prefix] in *;
    (replace (Js.truthy_string (_ +:+ rest)) with true by reflexivity);
    cbn [negb]; rewrite Htrim; prefix_tests; reflexivity.
Qed.

Lemma split_nonempty sep s : Js.split sep s ≠ [].
Proof. induction s as [|c s IH]; simpl; [done|]. by repeat case_match. Qed.

Lemma split_no_slash x rest :
  no_slash x = true → Js.split "/" (x +:+ "/" +:+ rest) = x :: Js.split "/" rest.
Proof.
  induction x as [|c x IH]; simpl; [done|].
  intros [Hc Hx]%andb_prop. rewrite IH by done.
  by destruct (Ascii.eqb c "/").
Qed.

Lemma split_no_slash_only x : no_slash x = true → Js.split "/" x = [x].
Proof.
  induction x as [|c x IH]; simpl; [done|].
  intros [Hc Hx]%andb_prop. rewrite IH by done.
  by destruct (Ascii.eqb c "/").
Qed.

(** joining what a split gave restores the text *)
Lemma join_split s : Js.join "/" (Js.split "/" s) = s.
Proof.
  induction s as [|c s IH]; [done|]. cbn [Js.split].
  destruct (Ascii.eqb_spec c "/") as [->|Hc].
  - pose proof (split_nonempty "/" s) as Hne.
    destruct (Js.split "/" s) as [|y ys]; [done|].
    cbn [Js.join]. cbn [Js.join] in IH. by rewrite IH.
  - pose proof (split_nonempty "/" s) as Hne.
    destruct (Js.split "/" s) as [|y ys]; [done|].
    destruct ys as [|z zs]; cbn [Js.join] in *; by rewrite <-IH.
Qed.

(** A pulse address [pulse://sequence/hash] whose sequence part has no
    slash parses back to that sequence and that hash (which may itself
    contain slashes); without any slash after the prefix the whole rest is
    the hash and there is no sequence. *)
Theorem parseAddress_pulse (sequence hash : string) :
  no_slash sequence = true →
  String_trim ("pulse://" +:+ sequence +:+ "/" +:+ hash)
    = "pulse://" +:+ sequence +:+ "/" +:+ hash →
  String_trim ("pulse://" +:+ sequence) = "pulse://" +:+ sequence →
  parseAddress ("pulse://" +:+ sequence +:+ "/" +:+ hash)
    = Some (Parsed.mk PULSE (Some sequence) hash)
  ∧ parseAddress ("pulse://" +:+ sequence) = Some (Parsed.mk PULSE None sequence).
Proof.
  intros Hseq Htrim1 Htrim2. unfold parseAddress. split.
  - replace (Js.truthy_string (_ +:+ _)) with true by reflexivity.
    cbn [negb]. rewrite Htrim1.
    change ("pulse://" +:+ sequence +:+ "/" +:+ hash)
      with ("pulse://" +:+ (sequence +:+ "/" +:+ hash)).
    set (rest := sequence +:+ "/" +:+ hash). prefix_tests.
    cbn [Js.slice_from]. subst rest. cbv zeta. rewrite split_no_slash by done.
    pose proof (split_nonempty "/" hash) as Hne.
    destruct (Js.split "/" hash) as [|y ys] eqn:Hsplit; [done|].
    cbn [length Nat.leb head tail]. by rewrite <-Hsplit, join_split.
  - replace (Js.truthy_string (_ +:+ _)) with true by reflexivity.
    cbn [negb]. rewrite Htrim2.
    prefix_tests. cbn [Js.slice_from]. cbv zeta. by rewrite split_no_slash_only.
Qed.

(** the prefix tests of [parseAddress], in its order *)
Definition known_prefix (trimmed : string) : bool :=
  Js.startsWith trimmed "xhe://" || Js.startsWith trimmed "did:xhe:"
  || Js.startsWith trimmed "pulse://" || Js.startsWith trimmed "ipfs://"
  || Js.startsWith trimmed "slip://" || Js.startsWith trimmed "feed://"
  || Js.startsWith trimmed "channel://".

(** [parseAddress] rejects exactly the empty string and the strings that,
    once trimmed, start with none of the seven prefixes; the scheme of a
    parsed address is the one whose prefix the trimmed string starts with. *)
Theorem parseAddress_None_iff (address : string) :
  (parseAddress address = None
   ↔ address = "" ∨ known_prefix (String_trim address) = false)
  ∧ ∀ parsed, parseAddress address = Some parsed →
      Js.startsWith (String_trim address) (scheme_prefix (Parsed.scheme parsed)) = true.
Proof.
  unfold parseAddress, known_prefix.
  destruct address as [|c address]; [split; [by split; [left|]|done]|].
  cbn [Js.truthy_string negb].
  set (t := String_trim (String c address)).
  split.
  - split.
    + intros Hp. right. by repeat (destruct (Js.startsWith t _); [by repeat case_match|]).
    + intros [?|Hk]; [done|].
      repeat (destruct (Js.startsWith t _); [done|]). done.
  - intros parsed.
    destruct (Js.startsWith t "xhe://") eqn:?; [by intros [= <-]|].
    destruct (Js.startsWith t "did:xhe:") eqn:?; [by intros [= <-]|].
    destruct (Js.startsWith t "pulse://") eqn:?; [by case_match; intros [= <-]|].
    destruct (Js.startsWith t "ipfs://") eqn:?; [by intros [= <-]|].
    destruct (Js.startsWith t "slip://") eqn:?; [by intros [= <-]|].
    destruct (Js.startsWith t "feed://") eqn:?; [by intros [= <-]|].
    destruct (Js.startsWith t "channel://") eqn:?; [by intros [= <-]|done].
Qed.

End Grammar.
